(** * PushChainRoulette: a shallow embedding of the game contract

    The contract [PushChainRoulette] (Solidity 0.8.20) is embedded as a set of
    state-passing functions in a small state-and-revert monad.

    - [uint256], [bytes32] and [address] values are natural numbers ([N]);
      Solidity 0.8 arithmetic is checked, so [+], [-] and [++] are the
      monadic [checked_add] and [checked_sub], which revert with [Panic]
      outside [0, 2^256).
    - A [mapping(address => T)] is a total function with the zero default.
    - A call either returns a new state or reverts; a reverted call leaves
      the state as it was ([step]).
    - [keccak256] is a parameter of the development; [abi.encodePacked] of
      fixed-width words is the list of those words.
    - The low-level [call{value: v}("")] is answered by the callee, who
      either fails or returns after re-entering the contract; every function
      that makes such a call is [nonReentrant], so the nested calls that can
      change the state are the unguarded ones.
    - [onlyOwner], [whenNotPaused], [whenPaused] and [nonReentrant] are the
      modifiers of the OpenZeppelin contracts the source inherits from, and
      [transferOwnership] and [renounceOwnership] are the public functions
      it inherits from [Ownable]: they carry no reentrancy guard, so the
      owner can change while a value transfer is under way. *)

From Stdlib Require Import NArith List String Bool Lia.
Import ListNotations.
Local Open Scope N_scope.

(** ** Words and constants *)

Abbreviation address := N (only parsing).
Abbreviation uint256 := N (only parsing).
Abbreviation bytes32 := N (only parsing).

Definition MAX_UINT256 : N := Eval cbv in 2 ^ 256 - 1.

(** [1 ether] in wei. *)
Definition ether : N := 1000000000000000000.

Definition SPIN_COST : N := 100000000000000000.        (* 0.1 ether *)
Definition COOLDOWN_PERIOD : N := 30.                   (* 30 seconds *)
Definition MAX_PRIZE : N := 1000000000000000000.        (* 1 ether *)
Definition REVEAL_DELAY : N := 2.

Definition PRIZE_0 : N := 0.
Definition PRIZE_1 : N := 50000000000000000.            (* 0.05 ether *)
Definition PRIZE_2 : N := 100000000000000000.           (* 0.1 ether *)
Definition PRIZE_3 : N := 200000000000000000.           (* 0.2 ether *)
Definition PRIZE_4 : N := 500000000000000000.           (* 0.5 ether *)
Definition PRIZE_5 : N := 1000000000000000000.          (* 1 ether *)

(** ** Errors and events *)

Inductive Error : Type :=
| InsufficientHouseBalance (required available : uint256)
| IncorrectBetAmount (sent required : uint256)
| CooldownNotExpired (timeRemaining : uint256)
| NoCommitFound
| CommitAlreadyRevealed
| RevealTooEarly (blocksRemaining : uint256)
| TransferFailed
| RequireFailed (reason : string)          (* require(cond, "reason") *)
| Panic                                    (* checked arithmetic, code 0x11 *)
| OwnableUnauthorizedAccount (account : address)
| OwnableInvalidOwner (owner : address)
| EnforcedPause
| ExpectedPause
| ReentrancyGuardReentrantCall
| NonPayable.                              (* value sent to a non-payable function *)

Inductive Event : Type :=
| SpinCommitted (player : address) (commitHash : bytes32) (blockNumber timestamp : uint256)
| SpinRevealed (player : address) (betAmount prizeAmount randomNumber timestamp : uint256)
| FundsDeposited (depositor : address) (amount : uint256)
| FundsWithdrawn (owner : address) (amount : uint256)
| Paused (account : address)
| Unpaused (account : address)
| OwnershipTransferred (previousOwner newOwner : address).

(** ** Storage *)

Record SpinCommit : Type := mkSpinCommit {
  commitHash : bytes32;
  blockNumber : uint256;
  betAmount : uint256;
  revealed : bool
}.

(** The value of an untouched [commits] slot. *)
Definition noCommit : SpinCommit := mkSpinCommit 0 0 0 false.

Record State : Type := mkState {
  owner : address;                          (* Ownable._owner *)
  paused : bool;                            (* Pausable._paused *)
  entered : bool;                           (* ReentrancyGuard._status == ENTERED *)
  balance : uint256;                        (* address(this).balance *)
  houseBalance : uint256;
  nonce : uint256;
  commits : address -> SpinCommit;
  s_lastSpinTime : address -> uint256;
  playerTotalSpins : address -> uint256;
  playerTotalWins : address -> uint256;
  events : list Event                       (* the log, oldest first *)
}.

(** [m[k] = v] on a mapping. *)
Definition upd {T : Type} (m : address -> T) (k : address) (v : T) : address -> T :=
  fun a => if a =? k then v else m a.

Definition set_owner (o : address) (s : State) : State :=
  mkState o (paused s) (entered s) (balance s) (houseBalance s) (nonce s) (commits s)
          (s_lastSpinTime s) (playerTotalSpins s) (playerTotalWins s) (events s).
Definition set_paused (b : bool) (s : State) : State :=
  mkState (owner s) b (entered s) (balance s) (houseBalance s) (nonce s) (commits s)
          (s_lastSpinTime s) (playerTotalSpins s) (playerTotalWins s) (events s).
Definition set_entered (b : bool) (s : State) : State :=
  mkState (owner s) (paused s) b (balance s) (houseBalance s) (nonce s) (commits s)
          (s_lastSpinTime s) (playerTotalSpins s) (playerTotalWins s) (events s).
Definition set_balance (v : uint256) (s : State) : State :=
  mkState (owner s) (paused s) (entered s) v (houseBalance s) (nonce s) (commits s)
          (s_lastSpinTime s) (playerTotalSpins s) (playerTotalWins s) (events s).
Definition set_houseBalance (v : uint256) (s : State) : State :=
  mkState (owner s) (paused s) (entered s) (balance s) v (nonce s) (commits s)
          (s_lastSpinTime s) (playerTotalSpins s) (playerTotalWins s) (events s).
Definition set_nonce (v : uint256) (s : State) : State :=
  mkState (owner s) (paused s) (entered s) (balance s) (houseBalance s) v (commits s)
          (s_lastSpinTime s) (playerTotalSpins s) (playerTotalWins s) (events s).
Definition set_commit (p : address) (c : SpinCommit) (s : State) : State :=
  mkState (owner s) (paused s) (entered s) (balance s) (houseBalance s) (nonce s)
          (upd (commits s) p c)
          (s_lastSpinTime s) (playerTotalSpins s) (playerTotalWins s) (events s).
Definition set_lastSpinTime (p : address) (v : uint256) (s : State) : State :=
  mkState (owner s) (paused s) (entered s) (balance s) (houseBalance s) (nonce s) (commits s)
          (upd (s_lastSpinTime s) p v) (playerTotalSpins s) (playerTotalWins s) (events s).
Definition set_totalSpins (p : address) (v : uint256) (s : State) : State :=
  mkState (owner s) (paused s) (entered s) (balance s) (houseBalance s) (nonce s) (commits s)
          (s_lastSpinTime s) (upd (playerTotalSpins s) p v) (playerTotalWins s) (events s).
Definition set_totalWins (p : address) (v : uint256) (s : State) : State :=
  mkState (owner s) (paused s) (entered s) (balance s) (houseBalance s) (nonce s) (commits s)
          (s_lastSpinTime s) (playerTotalSpins s) (upd (playerTotalWins s) p v) (events s).
Definition log (ev : Event) (s : State) : State :=
  mkState (owner s) (paused s) (entered s) (balance s) (houseBalance s) (nonce s) (commits s)
          (s_lastSpinTime s) (playerTotalSpins s) (playerTotalWins s) (events s ++ [ev]).

(** The state left by [constructor() Ownable(msg.sender) {}]: the
    constructor of [Ownable] hands the ownership to the deployer and logs
    it. *)
Definition init (deployer : address) : State :=
  mkState deployer false false 0 0 0 (fun _ => noCommit)
          (fun _ => 0) (fun _ => 0) (fun _ => 0) [OwnershipTransferred 0 deployer].

(** ** The call environment *)

Record Env : Type := mkEnv {
  msg_sender : address;
  msg_value : uint256;
  block_number : uint256;
  block_timestamp : uint256;
  block_prevrandao : uint256;
  blockhash : uint256 -> bytes32
}.

(** The external interface. *)
Inductive Op : Type :=
| DepositFunds
| WithdrawFunds (amount : uint256)
| CommitSpin (secretHash : bytes32)
| RevealSpin (secret : uint256)
| QuickSpin
| Pause
| Unpause
| EmergencyWithdraw
| Receive
| Fallback
| TransferOwnership (newOwner : address)
| RenounceOwnership.

Record Tx : Type := mkTx { tx_env : Env; tx_op : Op }.

(** What the recipient of a value transfer does with it: [None] when the
    call fails (the recipient reverts or cannot take the value), [Some k]
    when it returns, having made the nested calls [k s] into the contract,
    where [s] is the state it can observe.  A nested call that reverts is
    caught by the recipient. *)
Definition Callee : Type := option (State -> list Tx).

(** ** The state-and-revert monad *)

Inductive Result (A : Type) : Type :=
| Ok (a : A)
| Revert (e : Error).
Arguments Ok {A} a.
Arguments Revert {A} e.

Definition M (A : Type) : Type := State -> Result (A * State).

Definition ret {A : Type} (a : A) : M A := fun s => Ok (a, s).

Definition bind {A B : Type} (c : M A) (k : A -> M B) : M B :=
  fun s => match c s with
           | Ok (a, s') => k a s'
           | Revert e => Revert e
           end.

Declare Scope evm_scope.
Delimit Scope evm_scope with evm.
Notation "x <- c ;; k" := (bind c (fun x => k))
  (at level 61, c at next level, right associativity) : evm_scope.
Notation "c ;; k" := (bind c (fun _ => k))
  (at level 61, right associativity) : evm_scope.
Local Open Scope evm_scope.

Definition revert {A : Type} (e : Error) : M A := fun _ => Revert e.
Definition gets {A : Type} (f : State -> A) : M A := fun s => Ok (f s, s).
Definition modify (f : State -> State) : M unit := fun s => Ok (tt, f s).
Definition emit (ev : Event) : M unit := modify (log ev).

(** [if (c) revert E();] *)
Definition revert_if (c : bool) (e : Error) : M unit :=
  if c then revert e else ret tt.

(** [require(c, "reason");] *)
Definition require (c : bool) (reason : string) : M unit :=
  if c then ret tt else revert (RequireFailed reason).

Definition checked_add (a b : uint256) : M uint256 :=
  if a + b <=? MAX_UINT256 then ret (a + b) else revert Panic.

Definition checked_sub (a b : uint256) : M uint256 :=
  if b <=? a then ret (a - b) else revert Panic.

(** The state after a call: a revert rolls everything back. *)
Definition after {A : Type} (c : M A) (s : State) : State :=
  match c s with
  | Ok (_, s') => s'
  | Revert _ => s
  end.

(** ** Function entry and modifiers *)

(** A payable function: the value is credited before the body runs. *)
Definition payable (e : Env) : M unit :=
  modify (fun s => set_balance (balance s + msg_value e) s).

Definition nonpayable (e : Env) : M unit :=
  revert_if (negb (msg_value e =? 0)) NonPayable.

Definition onlyOwner (e : Env) : M unit :=
  o <- gets owner ;;
  revert_if (negb (msg_sender e =? o)) (OwnableUnauthorizedAccount (msg_sender e)).

Definition whenNotPaused : M unit :=
  p <- gets paused ;; revert_if p EnforcedPause.

Definition whenPaused : M unit :=
  p <- gets paused ;; revert_if (negb p) ExpectedPause.

Definition nonReentrant {A : Type} (body : M A) : M A :=
  st <- gets entered ;;
  revert_if st ReentrancyGuardReentrantCall ;;
  modify (set_entered true) ;;
  r <- body ;;
  modify (set_entered false) ;;
  ret r.

(** ** The functions without a reentrancy guard *)

Definition depositFunds (e : Env) : M unit :=
  payable e ;;
  onlyOwner e ;;
  require (0 <? msg_value e) "Must send some PC" ;;
  hb <- gets houseBalance ;;
  hb' <- checked_add hb (msg_value e) ;;
  modify (set_houseBalance hb') ;;
  emit (FundsDeposited (msg_sender e) (msg_value e)).

Definition pause (e : Env) : M unit :=
  nonpayable e ;;
  onlyOwner e ;;
  whenNotPaused ;;
  modify (set_paused true) ;;
  emit (Paused (msg_sender e)).

Definition unpause (e : Env) : M unit :=
  nonpayable e ;;
  onlyOwner e ;;
  whenPaused ;;
  modify (set_paused false) ;;
  emit (Unpaused (msg_sender e)).

Definition receive (e : Env) : M unit :=
  payable e ;;
  hb <- gets houseBalance ;;
  hb' <- checked_add hb (msg_value e) ;;
  modify (set_houseBalance hb') ;;
  emit (FundsDeposited (msg_sender e) (msg_value e)).

Definition fallback (e : Env) : M unit :=
  payable e ;;
  hb <- gets houseBalance ;;
  hb' <- checked_add hb (msg_value e) ;;
  modify (set_houseBalance hb') ;;
  emit (FundsDeposited (msg_sender e) (msg_value e)).

(** [Ownable._transferOwnership] *)
Definition _transferOwnership (newOwner : address) : M unit :=
  oldOwner <- gets owner ;;
  modify (set_owner newOwner) ;;
  emit (OwnershipTransferred oldOwner newOwner).

(** [Ownable.transferOwnership], inherited as it is. *)
Definition transferOwnership (e : Env) (newOwner : address) : M unit :=
  nonpayable e ;;
  onlyOwner e ;;
  revert_if (newOwner =? 0) (OwnableInvalidOwner 0) ;;
  _transferOwnership newOwner.

(** [Ownable.renounceOwnership], inherited as it is. *)
Definition renounceOwnership (e : Env) : M unit :=
  nonpayable e ;;
  onlyOwner e ;;
  _transferOwnership 0.

(** ** Value transfers *)

(** A call made while a guarded function is running.  The guarded functions
    revert ([nonReentrant], or an earlier modifier), which the caller of the
    nested call catches: the state is untouched. *)
Definition reenter (s : State) (t : Tx) : State :=
  match tx_op t with
  | DepositFunds => after (depositFunds (tx_env t)) s
  | Pause => after (pause (tx_env t)) s
  | Unpause => after (unpause (tx_env t)) s
  | Receive => after (receive (tx_env t)) s
  | Fallback => after (fallback (tx_env t)) s
  | TransferOwnership newOwner => after (transferOwnership (tx_env t) newOwner) s
  | RenounceOwnership => after (renounceOwnership (tx_env t)) s
  | WithdrawFunds _ | CommitSpin _ | RevealSpin _ | QuickSpin | EmergencyWithdraw => s
  end.

(** [(bool success, ) = payable(to).call{value: value}("")].  On success
    the value has left the contract and the recipient has run; on failure
    nothing has changed. *)
Definition call_value (callee : Callee) (to : address) (value : uint256) : M bool :=
  fun s =>
    if balance s <? value then Ok (false, s)
    else match callee with
         | None => Ok (false, s)
         | Some k =>
             let s1 := set_balance (balance s - value) s in
             Ok (true, fold_left reenter (k s1) s1)
         end.

(** ** The game *)

(** [_calculatePrize]: the tier of a draw. *)
Definition _calculatePrize (randomNumber : uint256) : uint256 :=
  if randomNumber <? 600 then PRIZE_0
  else if randomNumber <? 900 then PRIZE_1
  else if randomNumber <? 950 then PRIZE_2
  else if randomNumber <? 980 then PRIZE_3
  else if randomNumber <? 995 then PRIZE_4
  else PRIZE_5.

Section Contract.

(** [keccak256] over the packed encoding of a tuple of words. *)
Variable keccak256 : list N -> bytes32.

Definition _generateRandomNumber (e : Env) (secret commitBlock : uint256) : M uint256 :=
  n <- gets nonce ;;
  bal <- gets balance ;;
  ret (keccak256 [secret; block_prevrandao e; blockhash e commitBlock;
                  block_timestamp e; msg_sender e; n; bal] mod 1000).

Definition _generateQuickRandomNumber (e : Env) : M uint256 :=
  n <- gets nonce ;;
  n' <- checked_add n 1 ;;
  modify (set_nonce n') ;;
  prev <- checked_sub (block_number e) 1 ;;
  bal <- gets balance ;;
  ret (keccak256 [block_prevrandao e; block_timestamp e; msg_sender e; n';
                  blockhash e prev; bal] mod 1000).

(** The payout block, which [revealSpin] and [quickSpin] both contain:
    [if (prize > 0) { require(...); houseBalance -= prize; ... }]. *)
Definition pay_prize (e : Env) (callee : Callee) (prize : uint256) : M unit :=
  if 0 <? prize then
    hb <- gets houseBalance ;;
    require (prize <=? hb) "Insufficient house balance" ;;
    hb' <- checked_sub hb prize ;;
    modify (set_houseBalance hb') ;;
    w <- gets (fun s => playerTotalWins s (msg_sender e)) ;;
    w' <- checked_add w prize ;;
    modify (set_totalWins (msg_sender e) w') ;;
    success <- call_value callee (msg_sender e) prize ;;
    if negb success then
      hb1 <- gets houseBalance ;;
      hb2 <- checked_add hb1 prize ;;
      modify (set_houseBalance hb2) ;;
      w1 <- gets (fun s => playerTotalWins s (msg_sender e)) ;;
      w2 <- checked_sub w1 prize ;;
      modify (set_totalWins (msg_sender e) w2)
    else ret tt
  else ret tt.

(** [playerTotalSpins[msg.sender]++] *)
Definition count_spin (e : Env) : M unit :=
  n <- gets (fun s => playerTotalSpins s (msg_sender e)) ;;
  n' <- checked_add n 1 ;;
  modify (set_totalSpins (msg_sender e) n').

Definition withdrawFunds (e : Env) (callee : Callee) (amount : uint256) : M unit :=
  nonpayable e ;;
  onlyOwner e ;;
  nonReentrant (
    hb <- gets houseBalance ;;
    require (amount <=? hb) "Insufficient balance" ;;
    hb' <- checked_sub hb amount ;;
    modify (set_houseBalance hb') ;;
    o <- gets owner ;;
    success <- call_value callee o amount ;;
    revert_if (negb success) TransferFailed ;;
    o' <- gets owner ;;
    emit (FundsWithdrawn o' amount)).

Definition commitSpin (e : Env) (secretHash : bytes32) : M bytes32 :=
  payable e ;;
  whenNotPaused ;;
  nonReentrant (
    revert_if (negb (msg_value e =? SPIN_COST)) (IncorrectBetAmount (msg_value e) SPIN_COST) ;;
    hb <- gets houseBalance ;;
    revert_if (hb <? MAX_PRIZE) (InsufficientHouseBalance MAX_PRIZE hb) ;;
    lastSpin <- gets (fun s => s_lastSpinTime s (msg_sender e)) ;;
    due <- checked_add lastSpin COOLDOWN_PERIOD ;;
    revert_if (block_timestamp e <? due) (CooldownNotExpired (due - block_timestamp e)) ;;
    c <- gets (fun s => commits s (msg_sender e)) ;;
    require (revealed c || (blockNumber c =? 0)) "Previous spin not revealed" ;;
    hb' <- checked_add hb (msg_value e) ;;
    modify (set_houseBalance hb') ;;
    modify (set_lastSpinTime (msg_sender e) (block_timestamp e)) ;;
    n <- gets nonce ;;
    n' <- checked_add n 1 ;;
    modify (set_nonce n') ;;
    let h := keccak256 [secretHash; msg_sender e; block_timestamp e; n] in
    modify (set_commit (msg_sender e)
              (mkSpinCommit h (block_number e) (msg_value e) false)) ;;
    emit (SpinCommitted (msg_sender e) h (block_number e) (block_timestamp e)) ;;
    ret h).

Definition revealSpin (e : Env) (callee : Callee) (secret : uint256) : M uint256 :=
  nonpayable e ;;
  whenNotPaused ;;
  nonReentrant (
    c <- gets (fun s => commits s (msg_sender e)) ;;
    revert_if (blockNumber c =? 0) NoCommitFound ;;
    revert_if (revealed c) CommitAlreadyRevealed ;;
    due <- checked_add (blockNumber c) REVEAL_DELAY ;;
    revert_if (block_number e <? due) (RevealTooEarly (due - block_number e)) ;;
    let secretHash := keccak256 [secret] in
    lastSpin <- gets (fun s => s_lastSpinTime s (msg_sender e)) ;;
    n <- gets nonce ;;
    n1 <- checked_sub n 1 ;;
    let expectedCommit := keccak256 [secretHash; msg_sender e; lastSpin; n1] in
    require (expectedCommit =? commitHash c) "Invalid secret" ;;
    modify (set_commit (msg_sender e)
              (mkSpinCommit (commitHash c) (blockNumber c) (betAmount c) true)) ;;
    randomNumber <- _generateRandomNumber e secret (blockNumber c) ;;
    let prize := _calculatePrize randomNumber in
    pay_prize e callee prize ;;
    count_spin e ;;
    emit (SpinRevealed (msg_sender e) (betAmount c) prize randomNumber (block_timestamp e)) ;;
    ret prize).

Definition quickSpin (e : Env) (callee : Callee) : M uint256 :=
  payable e ;;
  whenNotPaused ;;
  nonReentrant (
    revert_if (negb (msg_value e =? SPIN_COST)) (IncorrectBetAmount (msg_value e) SPIN_COST) ;;
    hb <- gets houseBalance ;;
    revert_if (hb <? MAX_PRIZE) (InsufficientHouseBalance MAX_PRIZE hb) ;;
    lastSpin <- gets (fun s => s_lastSpinTime s (msg_sender e)) ;;
    due <- checked_add lastSpin COOLDOWN_PERIOD ;;
    revert_if (block_timestamp e <? due) (CooldownNotExpired (due - block_timestamp e)) ;;
    hb' <- checked_add hb (msg_value e) ;;
    modify (set_houseBalance hb') ;;
    modify (set_lastSpinTime (msg_sender e) (block_timestamp e)) ;;
    randomNumber <- _generateQuickRandomNumber e ;;
    let prize := _calculatePrize randomNumber in
    pay_prize e callee prize ;;
    count_spin e ;;
    emit (SpinRevealed (msg_sender e) (msg_value e) prize randomNumber (block_timestamp e)) ;;
    ret prize).

Definition emergencyWithdraw (e : Env) (callee : Callee) : M unit :=
  nonpayable e ;;
  onlyOwner e ;;
  whenPaused ;;
  nonReentrant (
    bal <- gets balance ;;
    modify (set_houseBalance 0) ;;
    o <- gets owner ;;
    success <- call_value callee o bal ;;
    revert_if (negb success) TransferFailed ;;
    o' <- gets owner ;;
    emit (FundsWithdrawn o' bal)).

(** [hasPendingCommit(player)] *)
Definition hasPendingCommit (s : State) (player : address) : bool :=
  (0 <? blockNumber (commits s player)) && negb (revealed (commits s player)).

(** ** Transactions *)

(** A transaction together with the behaviour of whoever receives value
    from it. *)
Record Call : Type := mkCall { call_tx : Tx; call_callee : Callee }.

Definition forget {A : Type} (c : M A) : M unit := _ <- c ;; ret tt.

Definition dispatch (t : Tx) (callee : Callee) : M unit :=
  match tx_op t with
  | DepositFunds => depositFunds (tx_env t)
  | WithdrawFunds amount => withdrawFunds (tx_env t) callee amount
  | CommitSpin secretHash => forget (commitSpin (tx_env t) secretHash)
  | RevealSpin secret => forget (revealSpin (tx_env t) callee secret)
  | QuickSpin => forget (quickSpin (tx_env t) callee)
  | Pause => pause (tx_env t)
  | Unpause => unpause (tx_env t)
  | EmergencyWithdraw => emergencyWithdraw (tx_env t) callee
  | Receive => receive (tx_env t)
  | Fallback => fallback (tx_env t)
  | TransferOwnership newOwner => transferOwnership (tx_env t) newOwner
  | RenounceOwnership => renounceOwnership (tx_env t)
  end.

Definition exec (s : State) (c : Call) : Result State :=
  match dispatch (call_tx c) (call_callee c) s with
  | Ok (_, s') => Ok s'
  | Revert err => Revert err
  end.

Definition step (s : State) (c : Call) : State :=
  after (dispatch (call_tx c) (call_callee c)) s.

Definition run (s : State) (cs : list Call) : State := fold_left step cs s.

(** ** Vocabulary of the properties *)

(** The draw [revealSpin] makes in state [s]. *)
Definition reveal_draw (s : State) (e : Env) (secret : uint256) : uint256 :=
  keccak256 [secret; block_prevrandao e;
             blockhash e (blockNumber (commits s (msg_sender e)));
             block_timestamp e; msg_sender e; nonce s; balance s] mod 1000.

(** The draw [quickSpin] makes when called in state [s]: the nonce has been
    advanced and the wager credited. *)
Definition quick_draw (s : State) (e : Env) : uint256 :=
  keccak256 [block_prevrandao e; block_timestamp e; msg_sender e; nonce s + 1;
             blockhash e (block_number e - 1); balance s + msg_value e] mod 1000.

(** [revealSpin] by [msg_sender e] gets past every check up to the payout:
    there is an unrevealed commit, it has matured, and the commitment
    recomputed from the current nonce and last-spin time is the stored one. *)
Definition reveal_passes (s : State) (e : Env) (secret : uint256) : Prop :=
  let c := commits s (msg_sender e) in
  msg_value e = 0 /\ paused s = false /\ entered s = false /\
  blockNumber c <> 0 /\ revealed c = false /\
  blockNumber c + REVEAL_DELAY <= block_number e /\
  blockNumber c + REVEAL_DELAY <= MAX_UINT256 /\
  1 <= nonce s /\
  keccak256 [keccak256 [secret]; msg_sender e;
             s_lastSpinTime s (msg_sender e); nonce s - 1] = commitHash c.

(** [quickSpin] passes admission control and does not overflow a counter
    on the way to the payout. *)
Definition quick_accepted (s : State) (e : Env) : Prop :=
  paused s = false /\ entered s = false /\
  msg_value e = SPIN_COST /\
  MAX_PRIZE <= houseBalance s /\
  s_lastSpinTime s (msg_sender e) + COOLDOWN_PERIOD <= block_timestamp e /\
  block_timestamp e <= MAX_UINT256 /\
  houseBalance s + SPIN_COST <= MAX_UINT256 /\
  nonce s + 1 <= MAX_UINT256 /\
  1 <= block_number e.

(** The operations that take a wager. *)
Definition takes_wager (op : Op) : bool :=
  match op with
  | CommitSpin _ | QuickSpin => true
  | _ => false
  end.

(** Is this call a [commitSpin] or a [quickSpin] that went through? *)
Definition wager_taken (s : State) (c : Call) : bool :=
  takes_wager (tx_op (call_tx c)) &&
  match exec s c with
  | Ok _ => true
  | Revert _ => false
  end.

(** The number of spins accepted along a run. *)
Fixpoint wagers_taken (s : State) (cs : list Call) : N :=
  match cs with
  | [] => 0
  | c :: cs' => N.b2n (wager_taken s c) + wagers_taken (step s c) cs'
  end.

End Contract.

(** The house can pay what it owes out of what the contract holds. *)
Definition solvent (s : State) : Prop := houseBalance s <= balance s.

(** What a nested call cannot touch. *)
Record same_game (s s' : State) : Prop := mkSameGame {
  sg_entered : entered s' = entered s;
  sg_nonce : nonce s' = nonce s;
  sg_commits : commits s' = commits s;
  sg_last : s_lastSpinTime s' = s_lastSpinTime s;
  sg_spins : playerTotalSpins s' = playerTotalSpins s;
  sg_wins : playerTotalWins s' = playerTotalWins s
}.

(** The operations that resolve a spin. *)
Definition resolves (op : Op) : bool :=
  match op with
  | RevealSpin _ | QuickSpin => true
  | _ => false
  end.

(** ** Concrete runs

    The scenarios below run the contract with [sum_hash] in the place of
    [keccak256]: the sum of the packed words, truncated to 256 bits.  The
    block's [prevrandao] then picks the draw. *)

Definition sum_hash (l : list N) : bytes32 := fold_right N.add 0 l mod 2 ^ 256.

Definition env (sender value number timestamp prevrandao : N) : Env :=
  mkEnv sender value number timestamp prevrandao (fun _ => 0).

(** A recipient that takes the value and does nothing else. *)
Definition accepts : Callee := Some (fun _ => []).
(** A recipient that rejects the value. *)
Definition rejects : Callee := None.
(** A recipient that takes the value and, before it returns, makes the
    call [transferOwnership(newOwner)] in the environment [e]. *)
Definition hands_over (e : Env) (newOwner : address) : Callee :=
  Some (fun _ => [mkTx e (TransferOwnership newOwner)]).

Definition call (sender value number timestamp prevrandao : N) (op : Op) (callee : Callee) : Call :=
  mkCall (mkTx (env sender value number timestamp prevrandao) op) callee.

(** Account [1] deploys and funds the house with one ether at block 5;
    account [7] commits to the secret [42] at block 10, timestamp 2000. *)
Definition funded : State :=
  run sum_hash (init 1) [call 1 ether 5 1000 0 DepositFunds rejects].
Definition commit7 : Call := call 7 SPIN_COST 10 2000 0 (CommitSpin (sum_hash [42])) rejects.
Definition committed : State := step sum_hash funded commit7.

(** Account [7] reveals at the given block.  Under [sum_hash] the draw is
    [(42 + prevrandao + 2024 + 7 + nonce + balance) mod 1000]: with the
    nonce at 1 and a balance that is a multiple of 1000 wei, a [prevrandao]
    of 900 draws 974. *)
Definition reveal7 (number prevrandao : N) (callee : Callee) : Call :=
  call 7 0 number 2024 prevrandao (RevealSpin 42) callee.

(** The walk-through of the specification: the house is funded with 100
    ether before account [7] commits. *)
Definition funded100 : State :=
  run sum_hash (init 1) [call 1 (100 * ether) 5 1000 0 DepositFunds rejects].

(** What may happen between the commit and the reveal. *)
Definition pause1 : Call := call 1 0 11 2010 0 Pause rejects.
Definition withdraw_all : Call :=
  call 1 0 11 2010 0 (WithdrawFunds (ether + SPIN_COST)) accepts.
Definition commit8 : Call := call 8 SPIN_COST 11 2010 0 (CommitSpin (sum_hash [43])) rejects.

(** ** The read-only functions *)

(** [getStats()] *)
Definition getStats (e : Env) : M (uint256 * uint256 * uint256 * bool) :=
  nonpayable e ;;
  contractBalance <- gets balance ;;
  availableBalance <- gets houseBalance ;;
  isPaused <- gets paused ;;
  ret (contractBalance, availableBalance, SPIN_COST, isPaused).


(** [getCommitDetails(player)] *)
Definition getCommitDetails (e : Env) (player : address)
  : M (bytes32 * uint256 * uint256 * bool * bool) :=
  nonpayable e ;;
  c <- gets (fun s => commits s player) ;;
  due <- checked_add (blockNumber c) REVEAL_DELAY ;;
  ret (commitHash c, blockNumber c, betAmount c, revealed c, due <=? block_number e).

(** ** Vocabulary of the further properties *)

Section Counting.

Variable keccak256 : list N -> bytes32.

(** Is this call a [revealSpin] or a [quickSpin] of [p] that went through? *)
Definition resolved_by (p : address) (s : State) (c : Call) : bool :=
  resolves (tx_op (call_tx c)) &&
  (msg_sender (tx_env (call_tx c)) =? p) &&
  match exec keccak256 s c with
  | Ok _ => true
  | Revert _ => false
  end.

(** The number of spins of [p] resolved along a run. *)
Fixpoint resolutions (p : address) (s : State) (cs : list Call) : N :=
  match cs with
  | [] => 0
  | c :: cs' => N.b2n (resolved_by p s c) + resolutions p (step keccak256 s c) cs'
  end.

End Counting.

(** [commitSpin] passes admission control and does not overflow a counter. *)
Definition commit_accepted (s : State) (e : Env) : Prop :=
  paused s = false /\ entered s = false /\
  msg_value e = SPIN_COST /\
  MAX_PRIZE <= houseBalance s /\
  s_lastSpinTime s (msg_sender e) + COOLDOWN_PERIOD <= MAX_UINT256 /\
  s_lastSpinTime s (msg_sender e) + COOLDOWN_PERIOD <= block_timestamp e /\
  hasPendingCommit s (msg_sender e) = false /\
  houseBalance s + SPIN_COST <= MAX_UINT256 /\
  nonce s + 1 <= MAX_UINT256.

(** Every counter of the storage fits in a [uint256]. *)
Definition in_range (s : State) : Prop :=
  houseBalance s <= MAX_UINT256 /\
  nonce s <= MAX_UINT256 /\
  (forall p, playerTotalSpins s p <= MAX_UINT256) /\
  (forall p, playerTotalWins s p <= MAX_UINT256).

(** The draws that fall in the tier of a prize. *)
Definition draws_paying (prize : uint256) : list N :=
  filter (fun r => _calculatePrize r =? prize) (map N.of_nat (seq 0 1000)).

(** What the house pays over one spin on each of the 1000 draws. *)
Definition total_of_prizes : uint256 :=
  fold_right N.add 0 (map (fun r => _calculatePrize (N.of_nat r)) (seq 0 1000)).

(** * Properties *)

(** ** Proof steps *)

(** Expose the state-passing code of a function. *)
Ltac expose :=
  cbv [bind ret revert gets modify emit revert_if require checked_add checked_sub
       payable nonpayable onlyOwner whenNotPaused whenPaused nonReentrant forget
       depositFunds pause unpause receive fallback
       _transferOwnership transferOwnership renounceOwnership
       withdrawFunds commitSpin revealSpin quickSpin emergencyWithdraw
       pay_prize count_spin _generateRandomNumber _generateQuickRandomNumber
       call_value after].

(** Read the fields of an updated state. *)
Ltac fields := simpl in *.

(** Turn a boolean test into the proposition it decides. *)
Ltac to_prop H :=
  match type of H with
  | (_ <? _) = true => apply N.ltb_lt in H
  | (_ <? _) = false => apply N.ltb_ge in H
  | (_ <=? _) = true => apply N.leb_le in H
  | (_ <=? _) = false => apply N.leb_gt in H
  | (_ =? _) = true => apply N.eqb_eq in H
  | (_ =? _) = false => apply N.eqb_neq in H
  | negb _ = true => apply negb_true_iff in H; to_prop H
  | negb _ = false => apply negb_false_iff in H; to_prop H
  | (_ || _) = true => apply orb_true_iff in H; destruct H as [H | H]; to_prop H
  | (_ || _) = false =>
      let H' := fresh H in
      apply orb_false_iff in H; destruct H as [H H']; to_prop H; to_prop H'
  | _ => idtac
  end.

(** ** Mappings *)

Lemma upd_same {T : Type} (m : address -> T) k v : upd m k v k = v.
Proof. unfold upd. now rewrite N.eqb_refl. Qed.

Lemma upd_other {T : Type} (m : address -> T) k v a : a <> k -> upd m k v a = m a.
Proof. unfold upd. intros H. apply N.eqb_neq in H. now rewrite H. Qed.

(** Split on the next test of the code. *)
Ltac branch :=
  match goal with
  | |- context [if ?c then _ else _] =>
      match type of c with bool => idtac end;
      let E := fresh "E" in destruct c eqn:E; to_prop E; cbv beta iota
  | |- context [match ?c with Some _ => _ | None => _ end] =>
      match type of c with Callee => idtac end;
      let E := fresh "E" in destruct c eqn:E; cbv beta iota
  end.

(** ** Nested calls *)

Lemma same_game_refl s : same_game s s.
Proof. now constructor. Qed.

Lemma same_game_trans s1 s2 s3 : same_game s1 s2 -> same_game s2 s3 -> same_game s1 s3.
Proof. intros [] []; constructor; congruence. Qed.

Lemma reenter_same_game s t : same_game s (reenter s t).
Proof.
  unfold reenter; destruct (tx_op t); try apply same_game_refl;
    expose; repeat branch; now constructor.
Qed.

Lemma reenter_solvent s t : solvent s -> solvent (reenter s t).
Proof.
  unfold reenter, solvent; intros Hs; destruct (tx_op t); try exact Hs;
    expose; repeat branch; fields; lia.
Qed.

Lemma nested_same_game ts : forall s, same_game s (fold_left reenter ts s).
Proof.
  induction ts as [|t ts IH]; intros s; simpl.
  - apply same_game_refl.
  - eapply same_game_trans; [apply reenter_same_game | apply IH].
Qed.

Lemma nested_solvent ts : forall s, solvent s -> solvent (fold_left reenter ts s).
Proof.
  induction ts as [|t ts IH]; intros s Hs; simpl; auto using reenter_solvent.
Qed.

(** Name the state a value transfer returns, keeping what it could not touch. *)
Ltac name_nested :=
  repeat match goal with
  | |- context [fold_left reenter ?ts ?s0] =>
      let H := fresh "Hn" in
      pose proof (nested_same_game ts s0) as H;
      destruct H as [? ? ? ? ? ?];
      generalize dependent (fold_left reenter ts s0); intros
  | _ : context [fold_left reenter ?ts ?s0] |- _ =>
      let H := fresh "Hn" in
      pose proof (nested_same_game ts s0) as H;
      destruct H as [? ? ? ? ? ?];
      generalize dependent (fold_left reenter ts s0); intros
  end;
  fields;
  repeat match goal with H : _ = _ :> (address -> _) |- _ => rewrite H in * end.

(** Split on the next test and drop the side the hypotheses exclude. *)
Ltac forward :=
  match goal with
  | |- context [if ?c then _ else _] =>
      match type of c with bool => idtac end;
      let E := fresh "E" in
      destruct c eqn:E; to_prop E; cbv beta iota; fields;
      try solve [exfalso; name_nested; rewrite ?upd_same in *; first [congruence | lia]]
  end.

Section Properties.

Variable keccak256 : list N -> bytes32.

(** ** What a call can do, whatever it is *)

Lemma step_exec s c :
  step keccak256 s c = match exec keccak256 s c with Ok s' => s' | Revert _ => s end.
Proof.
  unfold step, exec, after.
  now destruct (dispatch keccak256 (call_tx c) (call_callee c) s) as [[u s'] | err].
Qed.

Lemma dispatch_solvent t callee s :
  solvent s ->
  match dispatch keccak256 t callee s with
  | Ok (_, s') => solvent s'
  | Revert _ => True
  end.
Proof.
  unfold dispatch, solvent; intros Hs. destruct t as [e op]; cbn [tx_op tx_env].
  destruct op; expose; repeat branch; fields; try exact I; try lia;
    apply nested_solvent; unfold solvent; fields; lia.
Qed.

Lemma dispatch_stats t callee s p :
  match dispatch keccak256 t callee s with
  | Ok (_, s') =>
      playerTotalSpins s p <= playerTotalSpins s' p /\
      playerTotalWins s p <= playerTotalWins s' p /\
      (resolves (tx_op t) = false ->
       playerTotalSpins s' p = playerTotalSpins s p /\
       playerTotalWins s' p = playerTotalWins s p)
  | Revert _ => True
  end.
Proof.
  unfold dispatch. destruct t as [e op]; cbn [tx_op tx_env].
  destruct op; simpl resolves; expose; repeat branch; name_nested; try exact I;
    first [ repeat split; intros; reflexivity || lia || discriminate
          | destruct (N.eq_dec p (msg_sender e)) as [Hp | Hp];
            [rewrite Hp in * |];
            rewrite ?upd_same, ?upd_other by assumption;
            repeat split; intros; lia || discriminate ].
Qed.

Lemma dispatch_nonce t callee s :
  match dispatch keccak256 t callee s with
  | Ok (_, s') =>
      nonce s' = nonce s + N.b2n (takes_wager (tx_op t)) /\
      (entered s = false -> entered s' = false)
  | Revert _ => True
  end.
Proof.
  unfold dispatch. destruct t as [e op]; cbn [tx_op tx_env].
  destruct op; simpl takes_wager; expose; repeat branch; name_nested;
    try exact I; split; intros; try reflexivity; try congruence; lia.
Qed.

(** While a guarded function runs, a call into the contract does what
    [reenter] says. *)
Lemma reenter_is_step s t callee :
  entered s = true -> step keccak256 s (mkCall t callee) = reenter s t.
Proof.
  intros He. unfold step, dispatch, reenter. cbn [call_tx call_callee].
  destruct t as [e op]; cbn [tx_op tx_env].
  destruct op; try reflexivity; expose; repeat forward; reflexivity.
Qed.

Lemma step_solvent s c : solvent s -> solvent (step keccak256 s c).
Proof.
  intros Hs. unfold step, after.
  pose proof (dispatch_solvent (call_tx c) (call_callee c) s Hs) as H.
  now destruct (dispatch keccak256 (call_tx c) (call_callee c) s) as [[u s'] | err].
Qed.

Lemma step_nonce s c :
  nonce (step keccak256 s c) = nonce s + N.b2n (wager_taken keccak256 s c) /\
  (entered s = false -> entered (step keccak256 s c) = false).
Proof.
  unfold wager_taken, exec, step, after.
  pose proof (dispatch_nonce (call_tx c) (call_callee c) s) as H.
  destruct (dispatch keccak256 (call_tx c) (call_callee c) s) as [[u s'] | err].
  - rewrite andb_true_r. exact H.
  - rewrite andb_false_r. simpl. split; [lia | auto].
Qed.

Lemma run_solvent cs : forall s, solvent s -> solvent (run keccak256 s cs).
Proof.
  induction cs as [|c cs IH]; intros s Hs; simpl; auto using step_solvent.
Qed.

Lemma run_nonce cs : forall s,
  nonce (run keccak256 s cs) = nonce s + wagers_taken keccak256 s cs /\
  (entered s = false -> entered (run keccak256 s cs) = false).
Proof.
  induction cs as [|c cs IH]; intros s; simpl.
  - split; [lia | auto].
  - destruct (IH (step keccak256 s c)) as [Hn He].
    destruct (step_nonce s c) as [Hn1 He1].
    split; [rewrite Hn, Hn1; lia | auto].
Qed.

Lemma calculatePrize_le_max r : _calculatePrize r <= MAX_PRIZE.
Proof.
  unfold _calculatePrize, PRIZE_0, PRIZE_1, PRIZE_2, PRIZE_3, PRIZE_4, PRIZE_5, MAX_PRIZE.
  repeat match goal with |- context [?a <? ?b] => destruct (a <? b) end; lia.
Qed.

(** ** The house balance and the contract balance *)

(** C5: from deployment on, whatever calls are made and however the
    recipients of value answer, the house balance is at most the balance
    the contract holds. *)
Theorem houseBalance_within_balance (deployer : address) (cs : list Call) :
  houseBalance (init deployer) = 0 /\
  balance (init deployer) = 0 /\
  houseBalance (run keccak256 (init deployer) cs)
  <= balance (run keccak256 (init deployer) cs).
Proof.
  split; [reflexivity | split; [reflexivity |]].
  apply (run_solvent cs (init deployer)). unfold solvent. simpl. lia.
Qed.

(** ** Player statistics *)

(** C9: a call never lowers a player's spin count or winnings; a call that
    is neither [revealSpin] nor [quickSpin], and a call that reverts, leaves
    both as they were; and so the two only grow along a run. *)
Theorem player_stats_monotone (s : State) (c : Call) (p : address) :
  playerTotalSpins s p <= playerTotalSpins (step keccak256 s c) p /\
  playerTotalWins s p <= playerTotalWins (step keccak256 s c) p /\
  (if resolves (tx_op (call_tx c))
   then True
   else playerTotalSpins (step keccak256 s c) p = playerTotalSpins s p /\
        playerTotalWins (step keccak256 s c) p = playerTotalWins s p) /\
  match exec keccak256 s c with
  | Ok _ => True
  | Revert _ => playerTotalSpins (step keccak256 s c) p = playerTotalSpins s p /\
                playerTotalWins (step keccak256 s c) p = playerTotalWins s p
  end /\
  (forall cs,
      playerTotalSpins s p <= playerTotalSpins (run keccak256 s cs) p /\
      playerTotalWins s p <= playerTotalWins (run keccak256 s cs) p).
Proof.
  assert (Hstep : forall s0 c0,
             playerTotalSpins s0 p <= playerTotalSpins (step keccak256 s0 c0) p /\
             playerTotalWins s0 p <= playerTotalWins (step keccak256 s0 c0) p /\
             (resolves (tx_op (call_tx c0)) = false ->
              playerTotalSpins (step keccak256 s0 c0) p = playerTotalSpins s0 p /\
              playerTotalWins (step keccak256 s0 c0) p = playerTotalWins s0 p)).
  { intros s0 c0. unfold step, after.
    pose proof (dispatch_stats (call_tx c0) (call_callee c0) s0 p) as H.
    destruct (dispatch keccak256 (call_tx c0) (call_callee c0) s0) as [[u s'] | err].
    - exact H.
    - repeat split; lia. }
  destruct (Hstep s c) as (Hs & Hw & Hres).
  split; [exact Hs | split; [exact Hw | split; [| split]]].
  - destruct (resolves (tx_op (call_tx c))); [exact I | now apply Hres].
  - rewrite step_exec. now destruct (exec keccak256 s c).
  - intros cs. revert s Hs Hw Hres. induction cs as [|c0 cs IH]; intros s _ _ _; simpl.
    + split; lia.
    + destruct (Hstep s c0) as (Hs0 & Hw0 & Hr0).
      destruct (IH (step keccak256 s c0)) as [Hs1 Hw1]; try apply Hstep.
      split; lia.
Qed.

(** ** Draws and prizes *)

(** C6: a draw is below 1000 on both paths; the prize depends on the draw
    alone, with the cutoffs 600, 900, 950, 980 and 995; the six amounts are
    0, 0.05, 0.1, 0.2, 0.5 and 1 ether, they grow with the draw, and the
    largest is [MAX_PRIZE]. *)
Theorem prize_tiers (r : uint256) :
  (forall e secret commitBlock s,
      exists d, _generateRandomNumber keccak256 e secret commitBlock s = Ok (d, s) /\ d < 1000) /\
  (forall e s,
      match _generateQuickRandomNumber keccak256 e s with
      | Ok (d, _) => d < 1000
      | Revert err => err = Panic
      end) /\
  (r < 600 -> _calculatePrize r = 0) /\
  (600 <= r < 900 -> _calculatePrize r = 50000000000000000) /\
  (900 <= r < 950 -> _calculatePrize r = 100000000000000000) /\
  (950 <= r < 980 -> _calculatePrize r = 200000000000000000) /\
  (980 <= r < 995 -> _calculatePrize r = 500000000000000000) /\
  (995 <= r -> _calculatePrize r = 1000000000000000000) /\
  (forall r', r <= r' -> _calculatePrize r <= _calculatePrize r') /\
  _calculatePrize r <= MAX_PRIZE /\
  0 = PRIZE_0 /\ PRIZE_0 < PRIZE_1 /\ PRIZE_1 < PRIZE_2 /\ PRIZE_2 < PRIZE_3 /\
  PRIZE_3 < PRIZE_4 /\ PRIZE_4 < PRIZE_5 /\
  PRIZE_5 = MAX_PRIZE /\ MAX_PRIZE = ether.
Proof.
  assert (Hmod : forall x, x mod 1000 < 1000) by (intros x; apply N.mod_lt; discriminate).
  split; [|split].
  - intros e secret commitBlock s. eexists; split; [reflexivity | apply Hmod].
  - intros e s. expose. repeat branch; auto.
  - unfold _calculatePrize, PRIZE_0, PRIZE_1, PRIZE_2, PRIZE_3, PRIZE_4, PRIZE_5, MAX_PRIZE, ether.
    repeat split; try lia; intros;
      repeat match goal with
             | |- context [?a <? ?b] => destruct (N.ltb_spec a b)
             end; lia.
Qed.

(** ** Deposits and bare transfers *)

(** C10: a bare transfer ([receive], or [fallback] when call data matches
    no function) is accepted from any sender; it adds the value to the house
    balance and logs [FundsDeposited], and it leaves the state an explicit
    deposit of that value leaves. *)
Theorem bare_transfer_like_deposit (s : State) (e : Env) :
  houseBalance s + msg_value e <= MAX_UINT256 ->
  exists s',
    receive e s = Ok (tt, s') /\
    fallback e s = Ok (tt, s') /\
    houseBalance s' = houseBalance s + msg_value e /\
    balance s' = balance s + msg_value e /\
    events s' = events s ++ [FundsDeposited (msg_sender e) (msg_value e)] /\
    (forall s'', depositFunds e s = Ok (tt, s'') -> s'' = s') /\
    (msg_sender e = owner s -> 0 < msg_value e -> depositFunds e s = Ok (tt, s')).
Proof.
  intros Hfit. eexists. expose. simpl.
  destruct (N.leb_spec (houseBalance s + msg_value e) MAX_UINT256); [|lia].
  repeat split.
  - intros s''. repeat branch; intros H'; inversion H'; reflexivity.
  - intros Ho Hv. repeat branch; simpl in *; try reflexivity; try congruence; lia.
Qed.

(** ** Withdrawals *)

(** C8: [withdrawFunds] is for the owner and for at most the house balance;
    the recipient of the transfer sees the house balance already lowered;
    a failed transfer reverts the call; and a reverted call leaves the state
    as it was.  When the transfer succeeds the call returns the state the
    recipient's nested calls have left, with [FundsWithdrawn] logged for
    whoever owns the contract by then; with a recipient that does not call
    back that is the caller, and the house balance and the contract balance
    are lower by the amount. *)
Theorem withdrawFunds_atomic
    (s : State) (e : Env) (callee : Callee) (amount : uint256) :
  msg_value e = 0 -> entered s = false ->
  let mid := set_balance (balance s - amount)
               (set_houseBalance (houseBalance s - amount) (set_entered true s)) in
  (msg_sender e <> owner s ->
     withdrawFunds e callee amount s = Revert (OwnableUnauthorizedAccount (msg_sender e))) /\
  (msg_sender e = owner s -> houseBalance s < amount ->
     withdrawFunds e callee amount s = Revert (RequireFailed "Insufficient balance")) /\
  (msg_sender e = owner s -> amount <= houseBalance s ->
     callee = None \/ balance s < amount ->
     withdrawFunds e callee amount s = Revert TransferFailed) /\
  (forall k, msg_sender e = owner s -> amount <= houseBalance s -> amount <= balance s ->
     callee = Some k ->
     houseBalance mid = houseBalance s - amount /\
     withdrawFunds e callee amount s =
       Ok (tt, log (FundsWithdrawn (owner (fold_left reenter (k mid) mid)) amount)
                 (set_entered false (fold_left reenter (k mid) mid))) /\
     (k mid = [] ->
      withdrawFunds e callee amount s =
        Ok (tt, log (FundsWithdrawn (msg_sender e) amount)
                  (set_balance (balance s - amount)
                     (set_houseBalance (houseBalance s - amount) s))))) /\
  (forall err, withdrawFunds e callee amount s = Revert err ->
     step keccak256 s (mkCall (mkTx e (WithdrawFunds amount)) callee) = s).
Proof.
  intros Hv He mid. split; [|split; [|split; [|split]]].
  - intros Ho. expose. repeat forward. reflexivity.
  - intros Ho Ha. expose. repeat forward. reflexivity.
  - intros Ho Ha Hc. expose.
    destruct Hc as [-> | Hb]; repeat forward; repeat branch; try reflexivity; lia.
  - intros k Ho Ha Hb ->.
    assert (Hok : withdrawFunds e (Some k) amount s =
              Ok (tt, log (FundsWithdrawn (owner (fold_left reenter (k mid) mid)) amount)
                        (set_entered false (fold_left reenter (k mid) mid))))
      by (expose; repeat forward; reflexivity).
    split; [reflexivity | split; [exact Hok |]].
    intros Hk. rewrite Hok, Hk. subst mid.
    destruct s; simpl in *; subst. reflexivity.
  - intros err Hr. unfold step, dispatch, after; simpl. now rewrite Hr.
Qed.

(** ** Resolving a spin *)

(** Recall that a prize is at most the maximum prize. *)
Ltac bound_prize :=
  repeat match goal with
  | H : context [_calculatePrize ?x] |- _ =>
      lazymatch goal with
      | _ : _calculatePrize x <= MAX_PRIZE |- _ => fail
      | _ => pose proof (calculatePrize_le_max x)
      end
  | |- context [_calculatePrize ?x] =>
      lazymatch goal with
      | _ : _calculatePrize x <= MAX_PRIZE |- _ => fail
      | _ => pose proof (calculatePrize_le_max x)
      end
  end.

Lemma commitSpin_ok e sh s :
  match commitSpin keccak256 e sh s with
  | Ok (h, s') =>
      h = keccak256 [sh; msg_sender e; block_timestamp e; nonce s] /\
      commits s' (msg_sender e) = mkSpinCommit h (block_number e) (msg_value e) false /\
      nonce s' = nonce s + 1 /\
      s_lastSpinTime s' (msg_sender e) = block_timestamp e /\
      paused s' = false /\ entered s' = false /\
      houseBalance s' = houseBalance s + SPIN_COST /\
      MAX_PRIZE <= houseBalance s /\
      houseBalance s' <= MAX_UINT256 /\
      playerTotalSpins s' = playerTotalSpins s /\
      playerTotalWins s' = playerTotalWins s
  | Revert _ => True
  end.
Proof.
  expose. repeat branch; try exact I; fields;
    repeat split; rewrite ?upd_same; try reflexivity; try lia; congruence.
Qed.

Lemma revealSpin_resolves s e secret callee :
  reveal_passes keccak256 s e secret ->
  _calculatePrize (reveal_draw keccak256 s e secret) <= houseBalance s ->
  houseBalance s <= MAX_UINT256 ->
  playerTotalWins s (msg_sender e) + _calculatePrize (reveal_draw keccak256 s e secret)
    <= MAX_UINT256 ->
  playerTotalSpins s (msg_sender e) + 1 <= MAX_UINT256 ->
  match revealSpin keccak256 e callee secret s with
  | Ok (won, s') =>
      won = _calculatePrize (reveal_draw keccak256 s e secret) /\
      commits s' (msg_sender e)
        = mkSpinCommit (commitHash (commits s (msg_sender e)))
                       (blockNumber (commits s (msg_sender e)))
                       (betAmount (commits s (msg_sender e))) true /\
      entered s' = false /\
      playerTotalSpins s' (msg_sender e) = playerTotalSpins s (msg_sender e) + 1 /\
      (callee = None \/ balance s < _calculatePrize (reveal_draw keccak256 s e secret) ->
         houseBalance s' = houseBalance s /\ balance s' = balance s /\
         playerTotalWins s' (msg_sender e) = playerTotalWins s (msg_sender e) /\
         paused s' = false /\
         events s' = events s ++
           [SpinRevealed (msg_sender e) (betAmount (commits s (msg_sender e)))
              (_calculatePrize (reveal_draw keccak256 s e secret))
              (reveal_draw keccak256 s e secret) (block_timestamp e)])
  | Revert _ => False
  end.
Proof.
  unfold reveal_passes, reveal_draw.
  intros (Hv & Hp & He & Hb & Hr & Hdue & Hmax & Hn & Hh) Hhb Hfit Hw Hs.
  expose. repeat (forward || branch); name_nested;
    repeat split; rewrite ?upd_same; intros;
    repeat match goal with
           | H : _ \/ _ |- _ => destruct H as [H | H]; [discriminate H || congruence |]
           end;
    try reflexivity; try discriminate; try congruence; lia.
Qed.

Lemma quickSpin_resolves s e callee :
  quick_accepted s e ->
  playerTotalWins s (msg_sender e) + _calculatePrize (quick_draw keccak256 s e)
    <= MAX_UINT256 ->
  playerTotalSpins s (msg_sender e) + 1 <= MAX_UINT256 ->
  match quickSpin keccak256 e callee s with
  | Ok (won, s') =>
      won = _calculatePrize (quick_draw keccak256 s e) /\
      entered s' = false /\
      playerTotalSpins s' (msg_sender e) = playerTotalSpins s (msg_sender e) + 1 /\
      (callee = None \/
       balance s + SPIN_COST < _calculatePrize (quick_draw keccak256 s e) ->
         houseBalance s' = houseBalance s + SPIN_COST /\
         balance s' = balance s + SPIN_COST /\
         playerTotalWins s' (msg_sender e) = playerTotalWins s (msg_sender e) /\
         events s' = events s ++
           [SpinRevealed (msg_sender e) SPIN_COST
              (_calculatePrize (quick_draw keccak256 s e))
              (quick_draw keccak256 s e) (block_timestamp e)])
  | Revert _ => False
  end.
Proof.
  unfold quick_accepted, quick_draw.
  intros (Hp & He & Hv & Hhb & Hcool & Hts & Hfit & Hn & Hbn) Hw Hs.
  bound_prize.
  expose. repeat (forward || branch); name_nested;
    repeat split; rewrite ?upd_same; intros;
    repeat match goal with
           | H : _ \/ _ |- _ => destruct H as [H | H]; [discriminate H || congruence |]
           end;
    try reflexivity; try discriminate; try congruence; lia.
Qed.

Lemma revealSpin_counts e callee secret s :
  match revealSpin keccak256 e callee secret s with
  | Ok (_, s') =>
      playerTotalSpins s' (msg_sender e) = playerTotalSpins s (msg_sender e) + 1 /\
      revealed (commits s' (msg_sender e)) = true
  | Revert _ => True
  end.
Proof.
  expose. repeat branch; name_nested; try exact I;
    rewrite ?upd_same; split; reflexivity.
Qed.

Lemma quickSpin_counts e callee s :
  match quickSpin keccak256 e callee s with
  | Ok (_, s') =>
      playerTotalSpins s' (msg_sender e) = playerTotalSpins s (msg_sender e) + 1
  | Revert _ => True
  end.
Proof.
  expose. repeat branch; name_nested; try exact I;
    rewrite ?upd_same; reflexivity.
Qed.

(** ** Admission control *)

Lemma quickSpin_leaves_commit e callee s :
  match quickSpin keccak256 e callee s with
  | Ok (_, s') =>
      s_lastSpinTime s' (msg_sender e) = block_timestamp e /\
      commits s' = commits s
  | Revert _ => True
  end.
Proof.
  expose. repeat branch; name_nested; try exact I;
    rewrite ?upd_same; split; reflexivity.
Qed.

(** C7: on an active contract [commitSpin] and [quickSpin] test the wager
    first, then the house balance, then the cooldown, and [commitSpin] then
    the pending commit, each with its own error.  A [commitSpin] that
    passes the four tests returns, and a [quickSpin] that passes the first
    three returns whether or not the sender has a commit pending, which it
    leaves as it is (the counters not overflowing).  Both set the last-spin
    time to the block timestamp, and [revealSpin] never changes it. *)
Theorem admission_order (s : State) (e : Env) :
  paused s = false -> entered s = false ->
  let p := msg_sender e in
  let due := s_lastSpinTime s p + COOLDOWN_PERIOD in
  (msg_value e <> SPIN_COST ->
     (forall secretHash, commitSpin keccak256 e secretHash s
                         = Revert (IncorrectBetAmount (msg_value e) SPIN_COST)) /\
     (forall callee, quickSpin keccak256 e callee s
                     = Revert (IncorrectBetAmount (msg_value e) SPIN_COST))) /\
  (msg_value e = SPIN_COST -> houseBalance s < MAX_PRIZE ->
     (forall secretHash, commitSpin keccak256 e secretHash s
                         = Revert (InsufficientHouseBalance MAX_PRIZE (houseBalance s))) /\
     (forall callee, quickSpin keccak256 e callee s
                     = Revert (InsufficientHouseBalance MAX_PRIZE (houseBalance s)))) /\
  (msg_value e = SPIN_COST -> MAX_PRIZE <= houseBalance s ->
   due <= MAX_UINT256 -> block_timestamp e < due ->
     (forall secretHash, commitSpin keccak256 e secretHash s
                         = Revert (CooldownNotExpired (due - block_timestamp e))) /\
     (forall callee, quickSpin keccak256 e callee s
                     = Revert (CooldownNotExpired (due - block_timestamp e)))) /\
  (msg_value e = SPIN_COST -> MAX_PRIZE <= houseBalance s ->
   due <= MAX_UINT256 -> due <= block_timestamp e ->
   hasPendingCommit s p = true ->
     forall secretHash, commitSpin keccak256 e secretHash s
                        = Revert (RequireFailed "Previous spin not revealed")) /\
  (msg_value e = SPIN_COST -> MAX_PRIZE <= houseBalance s ->
   due <= MAX_UINT256 -> due <= block_timestamp e ->
   hasPendingCommit s p = false ->
   houseBalance s + SPIN_COST <= MAX_UINT256 -> nonce s + 1 <= MAX_UINT256 ->
     forall secretHash, exists h s',
       commitSpin keccak256 e secretHash s = Ok (h, s') /\
       s_lastSpinTime s' p = block_timestamp e /\
       hasPendingCommit s' p = negb (block_number e =? 0)) /\
  (msg_value e = SPIN_COST -> MAX_PRIZE <= houseBalance s ->
   due <= block_timestamp e -> block_timestamp e <= MAX_UINT256 ->
   houseBalance s + SPIN_COST <= MAX_UINT256 -> nonce s + 1 <= MAX_UINT256 ->
   1 <= block_number e ->
   playerTotalWins s p + MAX_PRIZE <= MAX_UINT256 ->
   playerTotalSpins s p + 1 <= MAX_UINT256 ->
     forall callee, exists prize s',
       quickSpin keccak256 e callee s = Ok (prize, s') /\
       s_lastSpinTime s' p = block_timestamp e /\
       hasPendingCommit s' p = hasPendingCommit s p) /\
  (forall secretHash h s', commitSpin keccak256 e secretHash s = Ok (h, s') ->
     s_lastSpinTime s' p = block_timestamp e) /\
  (forall callee prize s', quickSpin keccak256 e callee s = Ok (prize, s') ->
     s_lastSpinTime s' p = block_timestamp e) /\
  (forall callee secret q,
     s_lastSpinTime (after (revealSpin keccak256 e callee secret) s) q = s_lastSpinTime s q).
Proof.
  intros Hp He p due. subst p due.
  split; [|split; [|split; [|split; [|split; [|split; [|split; [|split]]]]]]];
    [ intros ?; split | intros ? ?; split | intros ? ? ? ?; split
    | intros ? ? ? ? Hpend | intros ? ? ? ? Hpend ? ? | intros ? ? ? ? ? ? ? ? ? | | | ].
  - intros sh. expose. repeat forward. reflexivity.
  - intros callee. expose. repeat forward. reflexivity.
  - intros sh. expose. repeat forward. reflexivity.
  - intros callee. expose. repeat forward. reflexivity.
  - intros sh. expose. repeat forward. reflexivity.
  - intros callee. expose. repeat forward. reflexivity.
  - intros sh. unfold hasPendingCommit in *.
    apply andb_true_iff in Hpend as [Hb Hr]. apply N.ltb_lt in Hb. apply negb_true_iff in Hr.
    expose. repeat forward. reflexivity.
  - intros sh. unfold hasPendingCommit in *.
    pose proof (commitSpin_ok e sh s) as Hok.
    assert (Hret : exists h s', commitSpin keccak256 e sh s = Ok (h, s')).
    { clear Hok. apply andb_false_iff in Hpend.
      destruct Hpend as [Hb | Hr];
        [apply N.ltb_ge in Hb | apply negb_false_iff in Hr];
        expose; repeat forward; eexists; eexists; reflexivity. }
    destruct Hret as (h & s' & Hret). rewrite Hret in Hok.
    destruct Hok as (_ & Hc & _ & Hl & _).
    exists h, s'. split; [exact Hret | split; [exact Hl |]].
    rewrite Hc. simpl. rewrite andb_true_r.
    destruct (N.eqb_spec (block_number e) 0) as [-> | Hn]; [reflexivity |].
    apply N.ltb_lt. lia.
  - intros callee.
    pose proof (calculatePrize_le_max (quick_draw keccak256 s e)) as Hmax.
    assert (Hacc : quick_accepted s e) by (unfold quick_accepted; repeat split; assumption).
    pose proof (quickSpin_resolves s e callee Hacc) as Hres.
    pose proof (quickSpin_leaves_commit e callee s) as Hst.
    destruct (quickSpin keccak256 e callee s) as [[prize s'] | err].
    + exists prize, s'. destruct Hst as [Hl Hc].
      split; [reflexivity | split; [exact Hl |]].
      unfold hasPendingCommit. now rewrite Hc.
    + exfalso. apply Hres; lia.
  - intros sh h s'. expose.
    repeat branch; intros Hok; inversion Hok; subst; simpl; apply upd_same.
  - intros callee prize s'. expose.
    repeat branch; intros Hok; inversion Hok; subst; clear Hok; name_nested;
      apply upd_same.
  - intros callee secret q. expose.
    repeat branch; name_nested; reflexivity.
Qed.

(** C4: when the transfer of a prize fails (the recipient rejects it, or
    the contract does not hold it), [revealSpin] and [quickSpin] still
    return: the house balance and the player's winnings are what they were
    before the payout, the commit is marked revealed, the spin is counted
    and [SpinRevealed] is logged; and every [revealSpin] and [quickSpin]
    that returns has counted one spin. *)
Theorem failed_transfer_still_resolves
    (s : State) (e : Env) (secret : uint256) (callee : Callee) :
  (reveal_passes keccak256 s e secret ->
   _calculatePrize (reveal_draw keccak256 s e secret) <= houseBalance s ->
   houseBalance s <= MAX_UINT256 ->
   playerTotalWins s (msg_sender e) + _calculatePrize (reveal_draw keccak256 s e secret)
     <= MAX_UINT256 ->
   playerTotalSpins s (msg_sender e) + 1 <= MAX_UINT256 ->
   callee = None \/ balance s < _calculatePrize (reveal_draw keccak256 s e secret) ->
   exists s',
     revealSpin keccak256 e callee secret s
       = Ok (_calculatePrize (reveal_draw keccak256 s e secret), s') /\
     houseBalance s' = houseBalance s /\
     balance s' = balance s /\
     playerTotalWins s' (msg_sender e) = playerTotalWins s (msg_sender e) /\
     playerTotalSpins s' (msg_sender e) = playerTotalSpins s (msg_sender e) + 1 /\
     revealed (commits s' (msg_sender e)) = true /\
     events s' = events s ++
       [SpinRevealed (msg_sender e) (betAmount (commits s (msg_sender e)))
          (_calculatePrize (reveal_draw keccak256 s e secret))
          (reveal_draw keccak256 s e secret) (block_timestamp e)]) /\
  (quick_accepted s e ->
   playerTotalWins s (msg_sender e) + _calculatePrize (quick_draw keccak256 s e)
     <= MAX_UINT256 ->
   playerTotalSpins s (msg_sender e) + 1 <= MAX_UINT256 ->
   callee = None \/ balance s + SPIN_COST < _calculatePrize (quick_draw keccak256 s e) ->
   exists s',
     quickSpin keccak256 e callee s = Ok (_calculatePrize (quick_draw keccak256 s e), s') /\
     houseBalance s' = houseBalance s + SPIN_COST /\
     balance s' = balance s + SPIN_COST /\
     playerTotalWins s' (msg_sender e) = playerTotalWins s (msg_sender e) /\
     playerTotalSpins s' (msg_sender e) = playerTotalSpins s (msg_sender e) + 1 /\
     events s' = events s ++
       [SpinRevealed (msg_sender e) SPIN_COST
          (_calculatePrize (quick_draw keccak256 s e))
          (quick_draw keccak256 s e) (block_timestamp e)]) /\
  (forall prize s', revealSpin keccak256 e callee secret s = Ok (prize, s') ->
     playerTotalSpins s' (msg_sender e) = playerTotalSpins s (msg_sender e) + 1 /\
     revealed (commits s' (msg_sender e)) = true) /\
  (forall prize s', quickSpin keccak256 e callee s = Ok (prize, s') ->
     playerTotalSpins s' (msg_sender e) = playerTotalSpins s (msg_sender e) + 1).
Proof.
  split; [|split; [|split]].
  - intros Hpass Hhb Hfit Hw Hs Hfail.
    pose proof (revealSpin_resolves s e secret callee Hpass Hhb Hfit Hw Hs) as H.
    destruct (revealSpin keccak256 e callee secret s) as [[won s'] | err]; [|contradiction].
    destruct H as (-> & Hc & _ & Hcount & Hfailed).
    destruct (Hfailed Hfail) as (H1 & H2 & H3 & _ & H5).
    exists s'. rewrite Hc. repeat split; assumption.
  - intros Hadm Hw Hs Hfail.
    pose proof (quickSpin_resolves s e callee Hadm Hw Hs) as H.
    destruct (quickSpin keccak256 e callee s) as [[won s'] | err]; [|contradiction].
    destruct H as (-> & _ & Hcount & Hfailed).
    destruct (Hfailed Hfail) as (H1 & H2 & H3 & H4).
    exists s'. repeat split; assumption.
  - intros prize s' Hok.
    pose proof (revealSpin_counts e callee secret s) as H. now rewrite Hok in H.
  - intros prize s' Hok.
    pose proof (quickSpin_counts e callee s) as H. now rewrite Hok in H.
Qed.

(** ** Paying out of the house balance *)

Lemma quickSpin_pays_from_house e callee s :
  match quickSpin keccak256 e callee s with
  | Ok (prize, _) => prize <= houseBalance s + SPIN_COST
  | Revert err => err <> RequireFailed "Insufficient house balance"
  end.
Proof.
  expose. repeat branch; name_nested; bound_prize;
    intros; first [discriminate | lia | intro; lia].
Qed.

Lemma revealSpin_pays_from_house e callee secret s :
  match revealSpin keccak256 e callee secret s with
  | Ok (prize, _) => prize <= houseBalance s
  | Revert err =>
      MAX_PRIZE <= houseBalance s -> err <> RequireFailed "Insufficient house balance"
  end.
Proof.
  expose. repeat branch; name_nested; bound_prize;
    intros; first [discriminate | lia | intro; lia].
Qed.

Lemma revealSpin_short_of_funds s e secret callee :
  reveal_passes keccak256 s e secret ->
  houseBalance s < _calculatePrize (reveal_draw keccak256 s e secret) ->
  revealSpin keccak256 e callee secret s
    = Revert (RequireFailed "Insufficient house balance").
Proof.
  unfold reveal_passes, reveal_draw.
  intros (Hv & Hp & He & Hb & Hr & Hdue & Hmax & Hn & Hh) Hhb.
  expose. repeat forward. reflexivity.
Qed.

(** C3, amended: [quickSpin] never fails the payout check, because it is
    accepted only when the house balance covers the maximum prize;
    [revealSpin] pays out of the house balance of the time of the reveal,
    so its payout check passes when that balance covers the maximum prize
    and fails when it is below the prize drawn; on both paths a prize
    returned is at most the house balance it is taken from. *)
Theorem payout_reverification (s : State) (e : Env) (callee : Callee) (secret : uint256) :
  quickSpin keccak256 e callee s <> Revert (RequireFailed "Insufficient house balance") /\
  (forall prize s', quickSpin keccak256 e callee s = Ok (prize, s') ->
     prize <= houseBalance s + SPIN_COST) /\
  (MAX_PRIZE <= houseBalance s ->
     revealSpin keccak256 e callee secret s
       <> Revert (RequireFailed "Insufficient house balance")) /\
  (forall prize s', revealSpin keccak256 e callee secret s = Ok (prize, s') ->
     prize <= houseBalance s) /\
  (reveal_passes keccak256 s e secret ->
   houseBalance s < _calculatePrize (reveal_draw keccak256 s e secret) ->
     revealSpin keccak256 e callee secret s
       = Revert (RequireFailed "Insufficient house balance")).
Proof.
  pose proof (quickSpin_pays_from_house e callee s) as Hq.
  pose proof (revealSpin_pays_from_house e callee secret s) as Hr.
  split; [|split; [|split; [|split]]].
  - intros Heq. rewrite Heq in Hq. now apply Hq.
  - intros prize s' Heq. now rewrite Heq in Hq.
  - intros Hhb Heq. rewrite Heq in Hr. now apply Hr.
  - intros prize s' Heq. now rewrite Heq in Hr.
  - apply revealSpin_short_of_funds.
Qed.

(** ** Commit, then reveal *)

Lemma revealSpin_too_early s e secret callee :
  msg_value e = 0 -> paused s = false -> entered s = false ->
  blockNumber (commits s (msg_sender e)) <> 0 ->
  revealed (commits s (msg_sender e)) = false ->
  blockNumber (commits s (msg_sender e)) + REVEAL_DELAY <= MAX_UINT256 ->
  block_number e < blockNumber (commits s (msg_sender e)) + REVEAL_DELAY ->
  revealSpin keccak256 e callee secret s
    = Revert (RevealTooEarly
                (blockNumber (commits s (msg_sender e)) + REVEAL_DELAY - block_number e)).
Proof.
  intros Hv Hp He Hb Hr Hmax Hearly. expose. repeat forward. reflexivity.
Qed.

Lemma revealSpin_again s e secret callee :
  msg_value e = 0 -> entered s = false ->
  blockNumber (commits s (msg_sender e)) <> 0 ->
  revealed (commits s (msg_sender e)) = true ->
  revealSpin keccak256 e callee secret s
    = Revert (if paused s then EnforcedPause else CommitAlreadyRevealed).
Proof.
  intros Hv He Hb Hr. expose. repeat forward; reflexivity.
Qed.

Lemma revealSpin_mismatch s e secret callee :
  msg_value e = 0 -> paused s = false -> entered s = false ->
  blockNumber (commits s (msg_sender e)) <> 0 ->
  revealed (commits s (msg_sender e)) = false ->
  blockNumber (commits s (msg_sender e)) + REVEAL_DELAY <= MAX_UINT256 ->
  blockNumber (commits s (msg_sender e)) + REVEAL_DELAY <= block_number e ->
  1 <= nonce s ->
  keccak256 [keccak256 [secret]; msg_sender e; s_lastSpinTime s (msg_sender e); nonce s - 1]
    <> commitHash (commits s (msg_sender e)) ->
  revealSpin keccak256 e callee secret s = Revert (RequireFailed "Invalid secret").
Proof.
  intros Hv Hp He Hb Hr Hmax Hdue Hn Hh. expose. repeat forward. reflexivity.
Qed.

Lemma revealSpin_matched e callee secret s :
  match revealSpin keccak256 e callee secret s with
  | Ok _ =>
      1 <= nonce s /\
      keccak256 [keccak256 [secret]; msg_sender e;
                 s_lastSpinTime s (msg_sender e); nonce s - 1]
        = commitHash (commits s (msg_sender e))
  | Revert _ => True
  end.
Proof.
  expose. repeat branch; try exact I; fields; split; assumption.
Qed.

(** C1, amended: take a player whose [commitSpin] of the hash of [secret]
    has returned, and a later state of an active contract in which that
    commit is still the player's record.  Revealing [secret] below
    [blockNumber + REVEAL_DELAY] fails with [RevealTooEarly] and the number
    of blocks left.  From that height on, if the nonce and the player's
    last-spin time are as the commit left them and the house balance covers
    the prize drawn, the reveal returns that prize; a second reveal then
    fails with [CommitAlreadyRevealed] (with [EnforcedPause], should the
    recipient of the prize have paused the contract). *)
Theorem reveal_after_commit
    (s0 : State) (e0 : Env) (secret : uint256) (h : bytes32) (s1 s : State)
    (e : Env) (callee : Callee) :
  commitSpin keccak256 e0 (keccak256 [secret]) s0 = Ok (h, s1) ->
  block_number e0 <> 0 ->
  block_number e0 + REVEAL_DELAY <= MAX_UINT256 ->
  msg_sender e = msg_sender e0 ->
  msg_value e = 0 ->
  commits s (msg_sender e0) = commits s1 (msg_sender e0) ->
  paused s = false ->
  entered s = false ->
  (block_number e < block_number e0 + REVEAL_DELAY ->
     revealSpin keccak256 e callee secret s
       = Revert (RevealTooEarly (block_number e0 + REVEAL_DELAY - block_number e))) /\
  (block_number e0 + REVEAL_DELAY <= block_number e ->
   nonce s = nonce s1 ->
   s_lastSpinTime s (msg_sender e0) = s_lastSpinTime s1 (msg_sender e0) ->
   _calculatePrize (reveal_draw keccak256 s e secret) <= houseBalance s ->
   houseBalance s <= MAX_UINT256 ->
   playerTotalWins s (msg_sender e) + _calculatePrize (reveal_draw keccak256 s e secret)
     <= MAX_UINT256 ->
   playerTotalSpins s (msg_sender e) + 1 <= MAX_UINT256 ->
   exists s2,
     revealSpin keccak256 e callee secret s
       = Ok (_calculatePrize (reveal_draw keccak256 s e secret), s2) /\
     forall e' callee' secret',
       msg_sender e' = msg_sender e -> msg_value e' = 0 ->
       revealSpin keccak256 e' callee' secret' s2
         = Revert (if paused s2 then EnforcedPause else CommitAlreadyRevealed)).
Proof.
  intros Hcommit Hbn Hmax Hsender Hv Hc Hp He.
  pose proof (commitSpin_ok e0 (keccak256 [secret]) s0) as Hok.
  rewrite Hcommit in Hok.
  destruct Hok as (Hh & Hrec & Hnonce & Hlast & _).
  rewrite Hrec in Hc.
  split.
  - intros Hearly.
    rewrite (revealSpin_too_early s e secret callee); rewrite ?Hsender, ?Hc; simpl; auto.
  - intros Hdue Hn Hl Hhb Hfit Hw Hs.
    rewrite Hlast in Hl.
    assert (Hpass : reveal_passes keccak256 s e secret).
    { unfold reveal_passes. rewrite Hsender, Hc, Hl, Hn, Hnonce. simpl.
      replace (nonce s0 + 1 - 1) with (nonce s0) by lia.
      repeat split; auto. lia. }
    pose proof (revealSpin_resolves s e secret callee Hpass Hhb Hfit Hw Hs) as H.
    destruct (revealSpin keccak256 e callee secret s) as [[won s2] | err]; [|contradiction].
    destruct H as (-> & Hrec2 & He2 & _).
    exists s2. split; [reflexivity|].
    intros e' callee' secret' Hsender' Hv'.
    apply revealSpin_again; rewrite ?Hsender', ?Hrec2; simpl; auto.
    rewrite Hsender, Hc. simpl. exact Hbn.
Qed.

(** ** The nonce at reveal time *)

(** C2: take a player whose [commitSpin] of the hash of [secret] has
    returned, and the state after any further calls in which that commit is
    still the player's record.  Barring a collision of [keccak256] between
    the words packed at commit time and those packed at reveal time, a reveal
    of [secret] returns only if the nonce is the one the commit left and the
    player's last-spin time is the commit's timestamp; if a [commitSpin] or
    [quickSpin] of anyone has gone through in between, the reveal fails, and
    it fails with "Invalid secret" once it gets to that check. *)
Theorem reveal_needs_the_nonce_of_the_commit
    (s0 : State) (e0 : Env) (secret : uint256) (h : bytes32) (s1 : State)
    (cs : list Call) (e : Env) (callee : Callee) :
  commitSpin keccak256 e0 (keccak256 [secret]) s0 = Ok (h, s1) ->
  msg_sender e = msg_sender e0 ->
  commits (run keccak256 s1 cs) (msg_sender e0) = commits s1 (msg_sender e0) ->
  (keccak256 [keccak256 [secret]; msg_sender e0;
              s_lastSpinTime (run keccak256 s1 cs) (msg_sender e0);
              nonce (run keccak256 s1 cs) - 1]
   = keccak256 [keccak256 [secret]; msg_sender e0; block_timestamp e0; nonce s0] ->
   s_lastSpinTime (run keccak256 s1 cs) (msg_sender e0) = block_timestamp e0 /\
   nonce (run keccak256 s1 cs) - 1 = nonce s0) ->
  (forall prize s2,
     revealSpin keccak256 e callee secret (run keccak256 s1 cs) = Ok (prize, s2) ->
     nonce (run keccak256 s1 cs) = nonce s1 /\
     s_lastSpinTime (run keccak256 s1 cs) (msg_sender e0)
       = s_lastSpinTime s1 (msg_sender e0)) /\
  (0 < wagers_taken keccak256 s1 cs ->
     (exists err, revealSpin keccak256 e callee secret (run keccak256 s1 cs) = Revert err) /\
     (msg_value e = 0 -> paused (run keccak256 s1 cs) = false ->
      block_number e0 <> 0 ->
      block_number e0 + REVEAL_DELAY <= MAX_UINT256 ->
      block_number e0 + REVEAL_DELAY <= block_number e ->
      revealSpin keccak256 e callee secret (run keccak256 s1 cs)
        = Revert (RequireFailed "Invalid secret"))).
Proof.
  intros Hcommit Hsender Hc Hfree.
  pose proof (commitSpin_ok e0 (keccak256 [secret]) s0) as Hok.
  rewrite Hcommit in Hok.
  destruct Hok as (Hh & Hrec & Hnonce & Hlast & _ & Hent & _).
  destruct (run_nonce cs s1) as [Hrun Hent'].
  specialize (Hent' Hent).
  set (s := run keccak256 s1 cs) in *.
  rewrite Hrec in Hc.
  assert (Hmatch : forall prize s2,
             revealSpin keccak256 e callee secret s = Ok (prize, s2) ->
             1 <= nonce s /\ nonce s = nonce s1 /\
             s_lastSpinTime s (msg_sender e0) = s_lastSpinTime s1 (msg_sender e0)).
  { intros prize s2 Heq.
    pose proof (revealSpin_matched e callee secret s) as Hm. rewrite Heq in Hm.
    destruct Hm as [Hone Hm]. rewrite Hsender, Hc in Hm. simpl in Hm. rewrite Hh in Hm.
    destruct (Hfree Hm) as [Ht Hn]. rewrite Hlast. repeat split; auto. lia. }
  split.
  - intros prize s2 Heq. destruct (Hmatch prize s2 Heq) as (_ & Hn & Hl). now split.
  - intros Hspins. split.
    + destruct (revealSpin keccak256 e callee secret s) as [[prize s2] | err] eqn:Heq.
      * destruct (Hmatch prize s2 eq_refl) as (_ & Hn & _). lia.
      * now exists err.
    + intros Hv Hp Hbn Hmax Hdue.
      apply revealSpin_mismatch; rewrite ?Hsender, ?Hc; simpl; auto;
        [lia |].
      rewrite Hh. intros Hm. destruct (Hfree Hm) as [_ Hn]. lia.
Qed.

End Properties.

(** * Concrete runs *)

(** Settle a closed statement by running the model. *)
Ltac run_model :=
  vm_compute; first [reflexivity | discriminate | intro; discriminate].

(** C10 at work: account [9] sends 5 wei to the funded contract. *)
Lemma bare_transfer_like_deposit_witness :
  houseBalance funded + msg_value (env 9 5 6 1001 0) <= MAX_UINT256 /\
  exists s',
    receive (env 9 5 6 1001 0) funded = Ok (tt, s') /\
    fallback (env 9 5 6 1001 0) funded = Ok (tt, s') /\
    houseBalance s' = ether + 5.
Proof.
  assert (H : houseBalance funded + msg_value (env 9 5 6 1001 0) <= MAX_UINT256)
    by run_model.
  split; [exact H |].
  destruct (bare_transfer_like_deposit funded (env 9 5 6 1001 0) H)
    as (s' & Hr & Hf & Hhb & _).
  exists s'. rewrite Hhb. repeat split; assumption.
Defined.

(** C8 at work: the owner, account [1], asks for two ether of a house
    balance of one; and the owner withdraws the ether and hands the
    ownership to account [9] on receiving it. *)
Lemma withdrawFunds_atomic_witness :
  msg_value (env 1 0 6 1001 0) = 0 /\ entered funded = false /\
  withdrawFunds (env 1 0 6 1001 0) accepts (2 * ether) funded
    = Revert (RequireFailed "Insufficient balance") /\
  step sum_hash funded (call 1 0 6 1001 0 (WithdrawFunds (2 * ether)) accepts) = funded /\
  exists s',
    withdrawFunds (env 1 0 6 1001 0) (hands_over (env 1 0 6 1001 0) 9) ether funded
      = Ok (tt, s') /\
    owner s' = 9 /\ houseBalance s' = 0 /\ balance s' = 0 /\
    events s' = events funded ++ [OwnershipTransferred 1 9; FundsWithdrawn 9 ether].
Proof.
  assert (Hv : msg_value (env 1 0 6 1001 0) = 0) by reflexivity.
  assert (He : entered funded = false) by reflexivity.
  destruct (withdrawFunds_atomic sum_hash funded (env 1 0 6 1001 0) accepts (2 * ether) Hv He)
    as (_ & Hshort & _ & _ & Hsame).
  assert (Hr : withdrawFunds (env 1 0 6 1001 0) accepts (2 * ether) funded
               = Revert (RequireFailed "Insufficient balance"))
    by (apply Hshort; run_model).
  pose proof (Hsame _ Hr) as Hstep.
  destruct (withdrawFunds_atomic sum_hash funded (env 1 0 6 1001 0)
              (hands_over (env 1 0 6 1001 0) 9) ether Hv He)
    as (_ & _ & _ & Hsent & _).
  assert (Hhb : ether <= houseBalance funded) by run_model.
  assert (Hbal : ether <= balance funded) by run_model.
  destruct (Hsent _ eq_refl Hhb Hbal eq_refl) as (_ & Hok & _).
  split; [exact Hv | split; [exact He | split; [exact Hr | split; [exact Hstep |]]]].
  eexists. split; [exact Hok |]. repeat apply conj; reflexivity.
Defined.

(** C7 at work: account [7] sends 5 wei for a spin; and with its commit
    pending and the cooldown over, it is refused a second commit and let in
    for a quick spin. *)
Lemma admission_order_witness :
  paused funded = false /\ entered funded = false /\
  commitSpin sum_hash (env 7 5 10 2000 0) (sum_hash [42]) funded
    = Revert (IncorrectBetAmount 5 SPIN_COST) /\
  quickSpin sum_hash (env 7 5 10 2000 0) accepts funded
    = Revert (IncorrectBetAmount 5 SPIN_COST) /\
  paused committed = false /\ entered committed = false /\
  hasPendingCommit committed 7 = true /\
  commitSpin sum_hash (env 7 SPIN_COST 12 2030 0) (sum_hash [43]) committed
    = Revert (RequireFailed "Previous spin not revealed") /\
  exists prize s',
    quickSpin sum_hash (env 7 SPIN_COST 12 2030 0) accepts committed = Ok (prize, s') /\
    s_lastSpinTime s' 7 = 2030 /\
    hasPendingCommit s' 7 = true.
Proof.
  assert (Hp : paused funded = false) by reflexivity.
  assert (He : entered funded = false) by reflexivity.
  destruct (admission_order sum_hash funded (env 7 5 10 2000 0) Hp He) as (Hbet & _).
  destruct Hbet as [Hc Hq]; [run_model |].
  assert (Hp' : paused committed = false) by reflexivity.
  assert (He' : entered committed = false) by reflexivity.
  assert (Hpend : hasPendingCommit committed 7 = true) by reflexivity.
  assert (Hhb : MAX_PRIZE <= houseBalance committed) by run_model.
  assert (Hmax : s_lastSpinTime committed 7 + COOLDOWN_PERIOD <= MAX_UINT256) by run_model.
  assert (Hdue : s_lastSpinTime committed 7 + COOLDOWN_PERIOD <= 2030) by run_model.
  assert (Hts : 2030 <= MAX_UINT256) by run_model.
  assert (Hfit : houseBalance committed + SPIN_COST <= MAX_UINT256) by run_model.
  assert (Hn : nonce committed + 1 <= MAX_UINT256) by run_model.
  assert (Hbn : 1 <= 12) by run_model.
  assert (Hw : playerTotalWins committed 7 + MAX_PRIZE <= MAX_UINT256) by run_model.
  assert (Hs : playerTotalSpins committed 7 + 1 <= MAX_UINT256) by run_model.
  destruct (admission_order sum_hash committed (env 7 SPIN_COST 12 2030 0) Hp' He')
    as (_ & _ & _ & Hpending & _ & Hquick & _).
  destruct (Hquick eq_refl Hhb Hdue Hts Hfit Hn Hbn Hw Hs accepts)
    as (prize & s' & Hok & Hl & Hkeep).
  split; [exact Hp | split; [exact He | split; [apply Hc | split; [apply Hq |]]]].
  split; [exact Hp' | split; [exact He' | split; [exact Hpend | split]]].
  - exact (Hpending eq_refl Hhb Hmax Hdue Hpend (sum_hash [43])).
  - exists prize, s'.
    split; [exact Hok | split; [exact Hl | exact (eq_trans Hkeep Hpend)]].
Defined.

(** C6 at work: the draw 650 is in the second tier. *)
Lemma prize_tiers_witness : _calculatePrize 650 = PRIZE_1.
Proof.
  destruct (prize_tiers sum_hash 650) as (_ & _ & _ & H & _).
  apply H. split; run_model.
Defined.

(** C4 at work: account [7] reveals at block 12, draws 974 and rejects the
    prize of 0.2 ether. *)
Lemma failed_transfer_still_resolves_witness :
  reveal_passes sum_hash committed (env 7 0 12 2024 900) 42 /\
  exists s',
    revealSpin sum_hash (env 7 0 12 2024 900) rejects 42 committed = Ok (PRIZE_3, s') /\
    houseBalance s' = houseBalance committed /\
    playerTotalWins s' 7 = 0 /\
    playerTotalSpins s' 7 = 1 /\
    revealed (commits s' 7) = true.
Proof.
  assert (Hpass : reveal_passes sum_hash committed (env 7 0 12 2024 900) 42)
    by (unfold reveal_passes; repeat split; run_model).
  split; [exact Hpass |].
  destruct (failed_transfer_still_resolves sum_hash committed (env 7 0 12 2024 900) 42 rejects)
    as (Hreveal & _).
  destruct Hreveal as (s' & Hr & Hhb & _ & Hw & Hs & Hc & _);
    [exact Hpass | run_model | run_model | run_model | run_model | left; reflexivity |].
  exists s'. repeat split; assumption.
Defined.

(** C3 at work: while the house holds the maximum prize, the reveal of
    account [7] does not fail the payout check. *)
Lemma payout_reverification_witness :
  MAX_PRIZE <= houseBalance committed /\
  revealSpin sum_hash (env 7 0 12 2024 900) accepts 42 committed
    <> Revert (RequireFailed "Insufficient house balance").
Proof.
  assert (H : MAX_PRIZE <= houseBalance committed) by run_model.
  split; [exact H |].
  destruct (payout_reverification sum_hash committed (env 7 0 12 2024 900) accepts 42)
    as (_ & _ & Hr & _).
  exact (Hr H).
Defined.

(** C3 refuted as stated: account [7] is let in while the house holds the
    maximum prize; the owner then withdraws the house balance; the reveal
    draws 974, a prize of 0.2 ether, and fails the payout check. *)
Lemma drained_house_refuses_prize :
  MAX_PRIZE <= houseBalance funded /\
  exec sum_hash funded commit7 = Ok committed /\
  houseBalance (step sum_hash committed withdraw_all) = 0 /\
  reveal_draw sum_hash (step sum_hash committed withdraw_all) (env 7 0 12 2024 900) 42 = 974 /\
  exec sum_hash (step sum_hash committed withdraw_all) (reveal7 12 900 accepts)
    = Revert (RequireFailed "Insufficient house balance").
Proof. repeat split; run_model. Qed.

(** C1 at work: account [7] reveals right after its commit, a block too
    early and then in time. *)
Lemma reveal_after_commit_witness :
  commitSpin sum_hash (env 7 SPIN_COST 10 2000 0) (sum_hash [42]) funded
    = Ok (2049, committed) /\
  revealSpin sum_hash (env 7 0 11 2012 900) accepts 42 committed
    = Revert (RevealTooEarly 1) /\
  exists s2,
    revealSpin sum_hash (env 7 0 12 2024 900) accepts 42 committed = Ok (PRIZE_3, s2) /\
    revealSpin sum_hash (env 7 0 13 2036 900) accepts 42 s2
      = Revert (if paused s2 then EnforcedPause else CommitAlreadyRevealed).
Proof.
  assert (Hcommit : commitSpin sum_hash (env 7 SPIN_COST 10 2000 0) (sum_hash [42]) funded
                    = Ok (2049, committed)) by reflexivity.
  assert (Hbn : block_number (env 7 SPIN_COST 10 2000 0) <> 0) by run_model.
  assert (Hmax : block_number (env 7 SPIN_COST 10 2000 0) + REVEAL_DELAY <= MAX_UINT256)
    by run_model.
  split; [exact Hcommit | split].
  - apply (reveal_after_commit sum_hash funded (env 7 SPIN_COST 10 2000 0) 42 2049
             committed committed (env 7 0 11 2012 900) accepts Hcommit Hbn Hmax
             eq_refl eq_refl eq_refl eq_refl eq_refl).
    run_model.
  - destruct (reveal_after_commit sum_hash funded (env 7 SPIN_COST 10 2000 0) 42 2049
                committed committed (env 7 0 12 2024 900) accepts Hcommit Hbn Hmax
                eq_refl eq_refl eq_refl eq_refl eq_refl)
      as [_ Hdue].
    destruct Hdue as (s2 & Hr & Hagain);
      [run_model | reflexivity | reflexivity
       | run_model | run_model | run_model | run_model |].
    exists s2. split; [exact Hr |].
    apply Hagain; reflexivity.
Defined.

(** C1 refuted as stated: account [7] has committed and reveals its secret.
    After the owner has paused the contract the reveal is refused with
    [EnforcedPause], too early or not; after the owner has withdrawn the
    house balance a winning reveal fails the payout check; after a commit
    of account [8] it fails the commitment check. *)
Lemma reveal_can_be_refused :
  exec sum_hash funded commit7 = Ok committed /\
  exec sum_hash (step sum_hash committed pause1) (reveal7 11 900 accepts)
    = Revert EnforcedPause /\
  exec sum_hash (step sum_hash committed pause1) (reveal7 12 900 accepts)
    = Revert EnforcedPause /\
  exec sum_hash (step sum_hash committed withdraw_all) (reveal7 12 900 accepts)
    = Revert (RequireFailed "Insufficient house balance") /\
  exec sum_hash (step sum_hash committed commit8) (reveal7 12 900 accepts)
    = Revert (RequireFailed "Invalid secret").
Proof. repeat split; run_model. Qed.

(** C2 at work: account [8] commits between the commit and the reveal of
    account [7]. *)
Lemma reveal_needs_the_nonce_of_the_commit_witness :
  commitSpin sum_hash (env 7 SPIN_COST 10 2000 0) (sum_hash [42]) funded
    = Ok (2049, committed) /\
  0 < wagers_taken sum_hash committed [commit8] /\
  nonce (run sum_hash committed [commit8]) = nonce committed + 1 /\
  revealSpin sum_hash (env 7 0 12 2024 900) accepts 42 (run sum_hash committed [commit8])
    = Revert (RequireFailed "Invalid secret").
Proof.
  assert (Hcommit : commitSpin sum_hash (env 7 SPIN_COST 10 2000 0) (sum_hash [42]) funded
                    = Ok (2049, committed)) by reflexivity.
  assert (Hspins : 0 < wagers_taken sum_hash committed [commit8]) by run_model.
  split; [exact Hcommit | split; [exact Hspins | split; [run_model |]]].
  assert (Hrec : commits (run sum_hash committed [commit8]) 7 = commits committed 7)
    by run_model.
  assert (Hfree :
    sum_hash [sum_hash [42]; 7; s_lastSpinTime (run sum_hash committed [commit8]) 7;
              nonce (run sum_hash committed [commit8]) - 1]
    = sum_hash [sum_hash [42]; 7; 2000; nonce funded] ->
    s_lastSpinTime (run sum_hash committed [commit8]) 7 = 2000 /\
    nonce (run sum_hash committed [commit8]) - 1 = nonce funded)
    by run_model.
  destruct (reveal_needs_the_nonce_of_the_commit sum_hash funded (env 7 SPIN_COST 10 2000 0)
              42 2049 committed [commit8] (env 7 0 12 2024 900) accepts
              Hcommit eq_refl Hrec Hfree)
    as [_ Hfail].
  destruct (Hfail Hspins) as [_ Hinvalid].
  apply Hinvalid; run_model.
Defined.

(** The walk-through of the specification: with 100 ether in the house, a
    commit with the exact wager brings the house balance to 100.1 ether; a
    reveal a block later is too early; two blocks later it resolves, here
    to the prize of 0.2 ether, and the player has one spin. *)
Example walk_through :
  let s1 := step sum_hash funded100 commit7 in
  let s2 := step sum_hash s1 (reveal7 12 900 accepts) in
  houseBalance s1 = 100 * ether + SPIN_COST /\
  exec sum_hash s1 (reveal7 11 900 accepts) = Revert (RevealTooEarly 1) /\
  houseBalance s2 = 100 * ether + SPIN_COST - PRIZE_3 /\
  balance s2 = houseBalance s2 /\
  playerTotalSpins s2 7 = 1 /\
  playerTotalWins s2 7 = PRIZE_3 /\
  events s2 = [OwnershipTransferred 0 1;
               FundsDeposited 1 (100 * ether);
               SpinCommitted 7 2049 10 2000;
               SpinRevealed 7 SPIN_COST PRIZE_3 974 2024].
Proof. repeat split; run_model. Qed.

(** * Further properties *)

(** ** Accounting *)

Lemma reenter_exact s t : houseBalance s = balance s ->
  houseBalance (reenter s t) = balance (reenter s t).
Proof.
  unfold reenter; intros Hs; destruct (tx_op t); try exact Hs;
    expose; repeat branch; fields; lia.
Qed.

Lemma nested_exact ts : forall s, houseBalance s = balance s ->
  houseBalance (fold_left reenter ts s) = balance (fold_left reenter ts s).
Proof.
  induction ts as [|t ts IH]; intros s Hs; simpl; auto using reenter_exact.
Qed.

Lemma nested_in_range_house ts : forall s, houseBalance s <= MAX_UINT256 ->
  houseBalance (fold_left reenter ts s) <= MAX_UINT256.
Proof.
  induction ts as [|t ts IH]; intros s Hs; simpl; [exact Hs |].
  apply IH. unfold reenter. destruct (tx_op t); try exact Hs;
    expose; repeat branch; fields; lia.
Qed.

Section Counters.

Variable keccak256 : list N -> N.

Lemma dispatch_exact t callee s :
  houseBalance s = balance s ->
  match dispatch keccak256 t callee s with
  | Ok (_, s') => houseBalance s' = balance s'
  | Revert _ => True
  end.
Proof.
  unfold dispatch; intros Hs. destruct t as [e op]; cbn [tx_op tx_env].
  destruct op; expose; repeat branch; fields; try exact I; try lia;
    apply nested_exact; fields; lia.
Qed.

Lemma dispatch_spins t callee s p :
  match dispatch keccak256 t callee s with
  | Ok (_, s') =>
      playerTotalSpins s' p
      = playerTotalSpins s p
        + N.b2n (resolves (tx_op t) && (msg_sender (tx_env t) =? p))
  | Revert _ => True
  end.
Proof.
  unfold dispatch. destruct t as [e op]; cbn [tx_op tx_env].
  destruct op; simpl resolves; cbn [andb]; expose; repeat branch; name_nested;
    try exact I; try (simpl; lia);
    (destruct (N.eqb_spec (msg_sender e) p) as [Hp | Hp];
     [rewrite <- Hp | ]; rewrite ?upd_same, ?upd_other by congruence; simpl; lia).
Qed.

Lemma dispatch_last t callee s p :
  match dispatch keccak256 t callee s with
  | Ok (_, s') =>
      s_lastSpinTime s' p = s_lastSpinTime s p \/
      (s_lastSpinTime s p + COOLDOWN_PERIOD <= s_lastSpinTime s' p /\
       s_lastSpinTime s' p = block_timestamp (tx_env t) /\
       msg_sender (tx_env t) = p /\ takes_wager (tx_op t) = true)
  | Revert _ => True
  end.
Proof.
  unfold dispatch. destruct t as [e op]; cbn [tx_op tx_env].
  destruct op; simpl takes_wager; expose; repeat branch; name_nested;
    try exact I; try (left; reflexivity);
    (destruct (N.eq_dec p (msg_sender e)) as [Hp | Hp];
     [ rewrite Hp in *; rewrite ?upd_same; right; repeat split; lia
     | rewrite ?upd_other by assumption; left; reflexivity ]).
Qed.

Lemma dispatch_in_range t callee s p :
  houseBalance s <= MAX_UINT256 -> nonce s <= MAX_UINT256 ->
  playerTotalSpins s p <= MAX_UINT256 -> playerTotalWins s p <= MAX_UINT256 ->
  match dispatch keccak256 t callee s with
  | Ok (_, s') =>
      houseBalance s' <= MAX_UINT256 /\ nonce s' <= MAX_UINT256 /\
      playerTotalSpins s' p <= MAX_UINT256 /\ playerTotalWins s' p <= MAX_UINT256
  | Revert _ => True
  end.
Proof.
  unfold dispatch; intros Hh Hn Hs Hw. destruct t as [e op]; cbn [tx_op tx_env].
  destruct op; expose; repeat branch; try exact I;
    try match goal with
    | |- context [fold_left reenter ?ts ?s0] =>
        let H := fresh "Hfit" in
        assert (H : houseBalance (fold_left reenter ts s0) <= MAX_UINT256)
          by (apply nested_in_range_house; fields; lia);
        revert H
    end;
    name_nested; intros;
    (destruct (N.eq_dec p (msg_sender e)) as [Hp | Hp];
     [ rewrite Hp in *; rewrite ?upd_same in *
     | rewrite ?upd_other in * by assumption ];
     repeat split; lia).
Qed.

Lemma dispatch_commits t callee s p :
  match dispatch keccak256 t callee s with
  | Ok (_, s') =>
      commits s' p = commits s p \/
      (msg_sender (tx_env t) = p /\
       match tx_op t with
       | CommitSpin _ =>
           hasPendingCommit s p = false /\
           blockNumber (commits s' p) = block_number (tx_env t) /\
           betAmount (commits s' p) = SPIN_COST /\
           revealed (commits s' p) = false
       | RevealSpin _ =>
           hasPendingCommit s p = true /\
           commits s' p = mkSpinCommit (commitHash (commits s p))
                            (blockNumber (commits s p)) (betAmount (commits s p)) true
       | _ => False
       end)
  | Revert _ => True
  end.
Proof.
  unfold dispatch, hasPendingCommit. destruct t as [e op]; cbn [tx_op tx_env].
  destruct op; expose; repeat branch; name_nested;
    try exact I; try (left; reflexivity);
    (destruct (N.eq_dec p (msg_sender e)) as [Hp | Hp];
     [ rewrite Hp in *; rewrite ?upd_same; right; split; [reflexivity |];
       repeat match goal with
              | H : revealed _ = _ |- _ => rewrite H
              end;
       simpl; repeat split; try reflexivity; try congruence;
       try (apply N.ltb_ge; lia);
       try (rewrite andb_true_r; apply N.ltb_lt; lia);
       try (rewrite andb_false_r; reflexivity);
       try match goal with H : blockNumber _ = 0 |- _ => rewrite H; reflexivity end
     | rewrite ?upd_other by assumption; left; reflexivity ]).
Qed.


Lemma step_exact s c : houseBalance s = balance s ->
  houseBalance (step keccak256 s c) = balance (step keccak256 s c).
Proof.
  intros Hs. unfold step, after.
  pose proof (dispatch_exact (call_tx c) (call_callee c) s Hs) as H.
  now destruct (dispatch keccak256 (call_tx c) (call_callee c) s) as [[u s'] | err].
Qed.

Lemma run_exact cs : forall s, houseBalance s = balance s ->
  houseBalance (run keccak256 s cs) = balance (run keccak256 s cs).
Proof.
  induction cs as [|c cs IH]; intros s Hs; simpl; auto using step_exact.
Qed.

(** X1: along any run of the contract's functions from deployment, the
    house balance is exactly the balance the contract holds, and [getStats]
    reports the same amount twice. *)
Theorem house_balance_is_contract_balance (deployer : address) (cs : list Call) (e : Env) :
  houseBalance (run keccak256 (init deployer) cs)
    = balance (run keccak256 (init deployer) cs) /\
  (msg_value e = 0 ->
   getStats e (run keccak256 (init deployer) cs)
     = Ok ((balance (run keccak256 (init deployer) cs),
            balance (run keccak256 (init deployer) cs),
            SPIN_COST,
            paused (run keccak256 (init deployer) cs)),
           run keccak256 (init deployer) cs)).
Proof.
  assert (H : houseBalance (run keccak256 (init deployer) cs)
              = balance (run keccak256 (init deployer) cs))
    by (apply run_exact; reflexivity).
  split; [exact H |].
  intros Hv. unfold getStats. expose. rewrite Hv. simpl. rewrite H. reflexivity.
Qed.

(** X2: the nonce never goes down, and since deployment it has counted
    the calls of [commitSpin] and [quickSpin] that went through. *)
Theorem nonce_counts_wagers (deployer : address) (s : State) (cs : list Call) :
  nonce (run keccak256 (init deployer) cs) = wagers_taken keccak256 (init deployer) cs /\
  nonce s <= nonce (run keccak256 s cs).
Proof.
  split.
  - destruct (run_nonce keccak256 cs (init deployer)) as [H _]. rewrite H. reflexivity.
  - destruct (run_nonce keccak256 cs s) as [H _]. rewrite H. lia.
Qed.

(** X3: the reentrancy guard is released at the end of every call: after
    any run from deployment it is not set, so no call is refused with
    [ReentrancyGuardReentrantCall] from the outside. *)
Theorem guard_released (deployer : address) (cs : list Call) (c : Call) :
  entered (run keccak256 (init deployer) cs) = false /\
  exec keccak256 (run keccak256 (init deployer) cs) c <> Revert ReentrancyGuardReentrantCall.
Proof.
  assert (H : entered (run keccak256 (init deployer) cs) = false)
    by (destruct (run_nonce keccak256 cs (init deployer)) as [_ H]; now apply H).
  split; [exact H |].
  set (s := run keccak256 (init deployer) cs) in *. clearbody s.
  unfold exec, dispatch. destruct c as [[e op] callee]; cbn [call_tx call_callee tx_op tx_env].
  destruct op; expose; repeat forward; repeat branch; discriminate.
Qed.

Lemma step_spins s c p :
  playerTotalSpins (step keccak256 s c) p
  = playerTotalSpins s p + N.b2n (resolved_by keccak256 p s c).
Proof.
  unfold resolved_by, exec, step, after.
  pose proof (dispatch_spins (call_tx c) (call_callee c) s p) as H.
  destruct (dispatch keccak256 (call_tx c) (call_callee c) s) as [[u s'] | err].
  - rewrite andb_true_r. exact H.
  - rewrite andb_false_r. simpl. lia.
Qed.

(** X4: a player's spin count is the number of that player's calls of
    [revealSpin] and [quickSpin] that went through since deployment. *)
Theorem spins_count_resolutions (deployer : address) (cs : list Call) (p : address) :
  playerTotalSpins (run keccak256 (init deployer) cs) p
  = resolutions keccak256 p (init deployer) cs.
Proof.
  assert (H : forall s, playerTotalSpins (run keccak256 s cs) p
                        = playerTotalSpins s p + resolutions keccak256 p s cs).
  { induction cs as [|c cs IH]; intros s; simpl.
    - lia.
    - rewrite IH, step_spins. lia. }
  rewrite H. reflexivity.
Qed.

Lemma step_last s c p :
  s_lastSpinTime (step keccak256 s c) p = s_lastSpinTime s p \/
  (s_lastSpinTime s p + COOLDOWN_PERIOD <= s_lastSpinTime (step keccak256 s c) p /\
   s_lastSpinTime (step keccak256 s c) p = block_timestamp (tx_env (call_tx c)) /\
   msg_sender (tx_env (call_tx c)) = p /\ takes_wager (tx_op (call_tx c)) = true).
Proof.
  unfold step, after.
  pose proof (dispatch_last (call_tx c) (call_callee c) s p) as H.
  destruct (dispatch keccak256 (call_tx c) (call_callee c) s) as [[u s'] | err];
    [exact H | now left].
Qed.

(** X5: a player's last-spin time changes only through that player's own
    [commitSpin] or [quickSpin], which sets it to the block timestamp, at
    least the cooldown later than it was; so it never goes down. *)
Theorem last_spin_time_grows (s : State) (c : Call) (cs : list Call) (p : address) :
  (s_lastSpinTime (step keccak256 s c) p = s_lastSpinTime s p \/
   (s_lastSpinTime s p + COOLDOWN_PERIOD <= s_lastSpinTime (step keccak256 s c) p /\
    s_lastSpinTime (step keccak256 s c) p = block_timestamp (tx_env (call_tx c)) /\
    msg_sender (tx_env (call_tx c)) = p /\ takes_wager (tx_op (call_tx c)) = true)) /\
  s_lastSpinTime s p <= s_lastSpinTime (run keccak256 s cs) p.
Proof.
  split; [apply step_last |].
  revert s. induction cs as [|c0 cs IH]; intros s; simpl; [lia |].
  specialize (IH (step keccak256 s c0)).
  destruct (step_last s c0 p) as [Heq | (Hle & _)]; lia.
Qed.

(** X6: after any run from deployment the house balance, the nonce and
    every player's spin count and winnings are below [2^256]. *)
Theorem counters_in_range (deployer : address) (cs : list Call) :
  in_range (run keccak256 (init deployer) cs).
Proof.
  assert (Hstep : forall s c, in_range s -> in_range (step keccak256 s c)).
  { intros s c (Hh & Hn & Hs & Hw).
    assert (Hp : forall p,
               houseBalance (step keccak256 s c) <= MAX_UINT256 /\
               nonce (step keccak256 s c) <= MAX_UINT256 /\
               playerTotalSpins (step keccak256 s c) p <= MAX_UINT256 /\
               playerTotalWins (step keccak256 s c) p <= MAX_UINT256).
    { intros p. unfold step, after.
      pose proof (dispatch_in_range (call_tx c) (call_callee c) s p Hh Hn (Hs p) (Hw p)) as H.
      destruct (dispatch keccak256 (call_tx c) (call_callee c) s) as [[u s'] | err];
        [exact H | auto]. }
    destruct (Hp 0) as (Hh' & Hn' & _).
    repeat split; auto; intros p; apply (Hp p). }
  assert (Hrun : forall s, in_range s -> in_range (run keccak256 s cs)).
  { induction cs as [|c cs IH]; intros s Hs; simpl; auto. }
  apply Hrun. unfold in_range, init, MAX_UINT256. simpl. repeat split; intros; lia.
Qed.

(** X7: the commit record of a player changes only through that player's
    own calls: a [commitSpin] that finds no pending commit and stores a new
    unrevealed record of the current block and the spin cost, or a
    [revealSpin] that finds a pending commit and marks it revealed. *)
Theorem commit_lifecycle (s : State) (c : Call) (p : address) :
  commits (step keccak256 s c) p = commits s p \/
  (msg_sender (tx_env (call_tx c)) = p /\
   match tx_op (call_tx c) with
   | CommitSpin _ =>
       hasPendingCommit s p = false /\
       blockNumber (commits (step keccak256 s c) p) = block_number (tx_env (call_tx c)) /\
       betAmount (commits (step keccak256 s c) p) = SPIN_COST /\
       revealed (commits (step keccak256 s c) p) = false
   | RevealSpin _ =>
       hasPendingCommit s p = true /\
       commits (step keccak256 s c) p
         = mkSpinCommit (commitHash (commits s p)) (blockNumber (commits s p))
                        (betAmount (commits s p)) true
   | _ => False
   end).
Proof.
  unfold step, after.
  pose proof (dispatch_commits (call_tx c) (call_callee c) s p) as H.
  destruct (dispatch keccak256 (call_tx c) (call_callee c) s) as [[u s'] | err];
    [exact H | now left].
Qed.

End Counters.

Section Gates.

Variable keccak256 : list N -> N.

(** ** Pausing *)

(** X8: on a paused contract [commitSpin], [quickSpin] and [revealSpin] are
    refused with [EnforcedPause] whatever their arguments, while a deposit
    and a bare transfer do what they do on an active contract. *)
Theorem paused_refuses_spins (s : State) (e : Env) :
  paused s = true ->
  (forall secretHash, commitSpin keccak256 e secretHash s = Revert EnforcedPause) /\
  (forall callee, quickSpin keccak256 e callee s = Revert EnforcedPause) /\
  (forall callee secret,
     revealSpin keccak256 e callee secret s
       = Revert (if msg_value e =? 0 then EnforcedPause else NonPayable)) /\
  after (depositFunds e) s = set_paused true (after (depositFunds e) (set_paused false s)) /\
  after (receive e) s = set_paused true (after (receive e) (set_paused false s)).
Proof.
  intros Hp. split; [|split; [|split; [|split]]].
  - intros sh. expose. simpl. now rewrite Hp.
  - intros callee. expose. simpl. now rewrite Hp.
  - intros callee secret. expose. destruct (msg_value e =? 0); simpl; [now rewrite Hp | reflexivity].
  - destruct s; simpl in Hp; subst. expose. simpl. repeat forward; reflexivity.
  - destruct s; simpl in Hp; subst. expose. simpl. repeat forward; reflexivity.
Qed.

(** X9: only the owner pauses and unpauses; pausing a paused contract fails
    with [EnforcedPause] and unpausing an active one with [ExpectedPause];
    pausing an active contract and unpausing it again changes nothing but
    the log, which gains [Paused] and [Unpaused]. *)
Theorem pause_then_unpause (s : State) (e e' : Env) :
  msg_value e = 0 -> msg_value e' = 0 ->
  (msg_sender e <> owner s ->
     pause e s = Revert (OwnableUnauthorizedAccount (msg_sender e)) /\
     unpause e s = Revert (OwnableUnauthorizedAccount (msg_sender e))) /\
  (msg_sender e = owner s -> paused s = true -> pause e s = Revert EnforcedPause) /\
  (msg_sender e = owner s -> paused s = false -> unpause e s = Revert ExpectedPause) /\
  (msg_sender e = owner s -> msg_sender e' = owner s -> paused s = false ->
     pause e s = Ok (tt, log (Paused (owner s)) (set_paused true s)) /\
     unpause e' (log (Paused (owner s)) (set_paused true s))
       = Ok (tt, log (Unpaused (owner s)) (log (Paused (owner s)) s))).
Proof.
  intros Hv Hv'. split; [|split; [|split]].
  - intros Ho. split; expose; repeat forward; reflexivity.
  - intros Ho Hp. expose. repeat forward. reflexivity.
  - intros Ho Hp. expose. repeat forward. reflexivity.
  - intros Ho Ho' Hp. split.
    + expose. repeat forward. now rewrite Ho.
    + destruct s; simpl in *; subst. expose. repeat forward. now rewrite Ho'.
Qed.

(** ** Emergency withdrawal *)

Lemma unpause_ok s e :
  msg_value e = 0 -> msg_sender e = owner s -> paused s = true ->
  unpause e s = Ok (tt, log (Unpaused (msg_sender e)) (set_paused false s)).
Proof. intros Hv Ho Hp. expose. repeat forward. reflexivity. Qed.

(** X10: [emergencyWithdraw] is for the owner and for a paused contract; it
    sends the whole balance of the contract, and the recipient sees the
    house balance already at zero; a failed transfer reverts it.  When the
    transfer succeeds it returns the state the recipient's nested calls
    have left, with [FundsWithdrawn] logged for whoever owns the contract
    by then.  With a recipient that does not call back, the contract is
    left empty, and once unpaused it refuses a spin with the exact wager
    for lack of house balance. *)
Theorem emergencyWithdraw_drains (s : State) (e : Env) (callee : Callee) :
  msg_value e = 0 -> entered s = false ->
  let mid := set_balance 0 (set_houseBalance 0 (set_entered true s)) in
  (msg_sender e <> owner s ->
     emergencyWithdraw e callee s = Revert (OwnableUnauthorizedAccount (msg_sender e))) /\
  (msg_sender e = owner s -> paused s = false ->
     emergencyWithdraw e callee s = Revert ExpectedPause) /\
  (msg_sender e = owner s -> paused s = true -> callee = None ->
     emergencyWithdraw e callee s = Revert TransferFailed) /\
  (forall k, msg_sender e = owner s -> paused s = true -> callee = Some k ->
     emergencyWithdraw e callee s
       = Ok (tt, log (FundsWithdrawn (owner (fold_left reenter (k mid) mid)) (balance s))
                   (set_entered false (fold_left reenter (k mid) mid)))) /\
  (forall k s' e1 e2,
     msg_sender e = owner s -> paused s = true -> callee = Some k -> k mid = [] ->
     emergencyWithdraw e callee s = Ok (tt, s') ->
     houseBalance s' = 0 /\ balance s' = 0 /\
     (msg_sender e1 = owner s -> msg_value e1 = 0 -> msg_value e2 = SPIN_COST ->
      (forall secretHash,
         commitSpin keccak256 e2 secretHash (after (unpause e1) s')
           = Revert (InsufficientHouseBalance MAX_PRIZE 0)) /\
      (forall callee2,
         quickSpin keccak256 e2 callee2 (after (unpause e1) s')
           = Revert (InsufficientHouseBalance MAX_PRIZE 0)))).
Proof.
  intros Hv He mid.
  assert (Hsome : forall k, msg_sender e = owner s -> paused s = true -> callee = Some k ->
     emergencyWithdraw e callee s
       = Ok (tt, log (FundsWithdrawn (owner (fold_left reenter (k mid) mid)) (balance s))
                   (set_entered false (fold_left reenter (k mid) mid)))).
  { intros k Ho Hp ->. expose. repeat forward.
    rewrite N.sub_diag. fold mid. reflexivity. }
  split; [|split; [|split; [|split]]].
  - intros Ho. expose. repeat forward. reflexivity.
  - intros Ho Hp. expose. repeat forward. reflexivity.
  - intros Ho Hp ->. expose. repeat forward; reflexivity.
  - exact Hsome.
  - intros k s' e1 e2 Ho Hp Hc Hk Hok.
    rewrite (Hsome k Ho Hp Hc), Hk in Hok. simpl in Hok.
    injection Hok as <-.
    split; [reflexivity | split; [reflexivity |]].
    intros Ho1 Hv1 Hv2.
    unfold after. rewrite unpause_ok by (simpl; auto).
    split; [intros sh | intros callee2]; expose; repeat forward;
      first [reflexivity | unfold MAX_PRIZE in *; lia].
Qed.

(** ** Deposits *)

(** X11: [depositFunds] checks the sender before the value: anyone but the
    owner is refused whatever is sent, the owner is refused when sending
    nothing, and otherwise the value is added to the house balance and to
    the contract balance and [FundsDeposited] is logged. *)
Theorem depositFunds_guards (s : State) (e : Env) :
  (msg_sender e <> owner s ->
     depositFunds e s = Revert (OwnableUnauthorizedAccount (msg_sender e))) /\
  (msg_sender e = owner s -> msg_value e = 0 ->
     depositFunds e s = Revert (RequireFailed "Must send some PC")) /\
  (msg_sender e = owner s -> 0 < msg_value e ->
   houseBalance s + msg_value e <= MAX_UINT256 ->
     depositFunds e s
       = Ok (tt, log (FundsDeposited (owner s) (msg_value e))
                   (set_houseBalance (houseBalance s + msg_value e)
                      (set_balance (balance s + msg_value e) s)))) /\
  (forall err, depositFunds e s = Revert err ->
     step keccak256 s (mkCall (mkTx e DepositFunds) None) = s).
Proof.
  split; [|split; [|split]].
  - intros Ho. expose. repeat forward. reflexivity.
  - intros Ho Hv. expose. repeat forward. reflexivity.
  - intros Ho Hv Hfit. expose. repeat forward. now rewrite Ho.
  - intros err Hr. unfold step, dispatch, after; simpl. now rewrite Hr.
Qed.

(** ** Committing *)

(** X12: [commitSpin] returns exactly when the contract is active, the
    wager is the spin cost, the house holds the maximum prize, the cooldown
    has passed, the sender has no pending commit and no counter overflows;
    it then credits the wager, advances the nonce, stamps the last-spin
    time, stores an unrevealed record under the sender and logs
    [SpinCommitted], leaving everything else as it was. *)
Theorem commitSpin_accepts (s : State) (e : Env) (secretHash : bytes32) :
  ((exists h s', commitSpin keccak256 e secretHash s = Ok (h, s')) <-> commit_accepted s e) /\
  (commit_accepted s e ->
   commitSpin keccak256 e secretHash s
     = Ok (keccak256 [secretHash; msg_sender e; block_timestamp e; nonce s],
           mkState (owner s) false false
             (balance s + SPIN_COST) (houseBalance s + SPIN_COST) (nonce s + 1)
             (upd (commits s) (msg_sender e)
                (mkSpinCommit
                   (keccak256 [secretHash; msg_sender e; block_timestamp e; nonce s])
                   (block_number e) SPIN_COST false))
             (upd (s_lastSpinTime s) (msg_sender e) (block_timestamp e))
             (playerTotalSpins s) (playerTotalWins s)
             (events s ++
                [SpinCommitted (msg_sender e)
                   (keccak256 [secretHash; msg_sender e; block_timestamp e; nonce s])
                   (block_number e) (block_timestamp e)]))).
Proof.
  assert (Hsuff : commit_accepted s e ->
   commitSpin keccak256 e secretHash s
     = Ok (keccak256 [secretHash; msg_sender e; block_timestamp e; nonce s],
           mkState (owner s) false false
             (balance s + SPIN_COST) (houseBalance s + SPIN_COST) (nonce s + 1)
             (upd (commits s) (msg_sender e)
                (mkSpinCommit
                   (keccak256 [secretHash; msg_sender e; block_timestamp e; nonce s])
                   (block_number e) SPIN_COST false))
             (upd (s_lastSpinTime s) (msg_sender e) (block_timestamp e))
             (playerTotalSpins s) (playerTotalWins s)
             (events s ++
                [SpinCommitted (msg_sender e)
                   (keccak256 [secretHash; msg_sender e; block_timestamp e; nonce s])
                   (block_number e) (block_timestamp e)]))).
  { unfold commit_accepted, hasPendingCommit.
    intros (Hp & He & Hv & Hhb & Hmax & Hcool & Hpend & Hfit & Hn).
    apply andb_false_iff in Hpend.
    destruct s as [o pa en bal hb n cm ls sp wi ev]; simpl in *; subst pa en.
    destruct Hpend as [Hb | Hr];
      [apply N.ltb_ge in Hb | apply negb_false_iff in Hr];
      expose; repeat forward; rewrite Hv; reflexivity. }
  split; [split |]; [| | exact Hsuff].
  - intros (h & s' & Hok). unfold commit_accepted, hasPendingCommit.
    revert Hok. expose.
    repeat branch; intros Hok; try discriminate Hok; fields;
      repeat split; try assumption; try lia;
      repeat match goal with H : revealed _ = _ |- _ => rewrite H end;
      rewrite ?andb_false_r; try reflexivity;
      try (apply andb_false_iff; left; apply N.ltb_ge; lia).
  - intros Hacc. rewrite (Hsuff Hacc). eauto.
Qed.

End Gates.

(** Recall that a prize is at most the maximum prize. *)
Ltac prize_bound :=
  repeat match goal with
  | H : context [_calculatePrize ?x] |- _ =>
      lazymatch goal with
      | _ : _calculatePrize x <= MAX_PRIZE |- _ => fail
      | _ => pose proof (calculatePrize_le_max x)
      end
  end.

Section Reading.

Variable keccak256 : list N -> N.

(** ** The cooldown *)

Lemma quickSpin_stamps e callee s :
  match quickSpin keccak256 e callee s with
  | Ok (_, s') =>
      s_lastSpinTime s' (msg_sender e) = block_timestamp e /\ entered s' = false
  | Revert _ => True
  end.
Proof.
  expose. repeat branch; name_nested; try exact I;
    rewrite ?upd_same; split; reflexivity.
Qed.

Lemma spin_within_cooldown s e :
  paused s = false -> entered s = false ->
  msg_value e = SPIN_COST -> MAX_PRIZE <= houseBalance s ->
  s_lastSpinTime s (msg_sender e) + COOLDOWN_PERIOD <= MAX_UINT256 ->
  block_timestamp e < s_lastSpinTime s (msg_sender e) + COOLDOWN_PERIOD ->
  (forall secretHash,
     commitSpin keccak256 e secretHash s
       = Revert (CooldownNotExpired
                   (s_lastSpinTime s (msg_sender e) + COOLDOWN_PERIOD - block_timestamp e))) /\
  (forall callee,
     quickSpin keccak256 e callee s
       = Revert (CooldownNotExpired
                   (s_lastSpinTime s (msg_sender e) + COOLDOWN_PERIOD - block_timestamp e))).
Proof.
  intros Hp He Hv Hhb Hmax Hearly.
  split; intros ?; expose; repeat forward; reflexivity.
Qed.


(** X13: a player who has just spun, by [commitSpin] or [quickSpin] at time
    [t], is refused another spin with the exact wager before [t + 30]
    seconds, with [CooldownNotExpired] and the seconds left, as long as the
    contract is active, the house holds the maximum prize and the
    last-spin time is still [t]. *)
Theorem second_spin_waits
    (s0 : State) (e0 : Env) (secretHash : bytes32) (callee0 : Callee)
    (r0 : uint256) (s1 s : State) (e : Env) :
  commitSpin keccak256 e0 secretHash s0 = Ok (r0, s1) \/
  quickSpin keccak256 e0 callee0 s0 = Ok (r0, s1) ->
  msg_sender e = msg_sender e0 ->
  msg_value e = SPIN_COST ->
  s_lastSpinTime s (msg_sender e0) = s_lastSpinTime s1 (msg_sender e0) ->
  paused s = false -> entered s = false -> MAX_PRIZE <= houseBalance s ->
  block_timestamp e0 + COOLDOWN_PERIOD <= MAX_UINT256 ->
  block_timestamp e < block_timestamp e0 + COOLDOWN_PERIOD ->
  (forall secretHash',
     commitSpin keccak256 e secretHash' s
       = Revert (CooldownNotExpired (block_timestamp e0 + COOLDOWN_PERIOD - block_timestamp e))) /\
  (forall callee,
     quickSpin keccak256 e callee s
       = Revert (CooldownNotExpired (block_timestamp e0 + COOLDOWN_PERIOD - block_timestamp e))).
Proof.
  intros Hfirst Hsender Hv Hlast Hp He Hhb Hmax Hearly.
  assert (Hstamp : s_lastSpinTime s1 (msg_sender e0) = block_timestamp e0).
  { destruct Hfirst as [Hc | Hq].
    - pose proof (commitSpin_ok keccak256 e0 secretHash s0) as H. rewrite Hc in H.
      now destruct H as (_ & _ & _ & H & _).
    - pose proof (quickSpin_stamps e0 callee0 s0) as H. rewrite Hq in H.
      now destruct H as [H _]. }
  rewrite Hstamp in Hlast.
  pose proof (spin_within_cooldown s e Hp He Hv Hhb) as H.
  rewrite Hsender, Hlast in H. now apply H.
Qed.

(** ** Reading a player's state *)


(** ** Reading a commit *)

(** X15: [getCommitDetails] returns the stored record and changes nothing,
    and its [canReveal] only compares block heights: with a pending commit
    it tells whether [revealSpin] in that block is refused with
    [RevealTooEarly] or gets past the three record checks, but without a
    pending commit [revealSpin] is refused ([NoCommitFound] or
    [CommitAlreadyRevealed]) whatever [canReveal] says, and for an account
    that never committed [canReveal] is true from block [REVEAL_DELAY] on. *)
Theorem getCommitDetails_and_reveal (s : State) (e : Env) (player : address) :
  msg_value e = 0 ->
  blockNumber (commits s player) + REVEAL_DELAY <= MAX_UINT256 ->
  let c := commits s player in
  let canReveal := blockNumber c + REVEAL_DELAY <=? block_number e in
  getCommitDetails e player s
    = Ok ((commitHash c, blockNumber c, betAmount c, revealed c, canReveal), s) /\
  (forall e' callee secret,
     msg_sender e' = player -> msg_value e' = 0 -> block_number e' = block_number e ->
     paused s = false -> entered s = false ->
     (hasPendingCommit s player = false ->
        revealSpin keccak256 e' callee secret s
          = Revert (if blockNumber c =? 0 then NoCommitFound else CommitAlreadyRevealed)) /\
     (hasPendingCommit s player = true -> canReveal = false ->
        revealSpin keccak256 e' callee secret s
          = Revert (RevealTooEarly (blockNumber c + REVEAL_DELAY - block_number e))) /\
     (hasPendingCommit s player = true -> canReveal = true ->
        match revealSpin keccak256 e' callee secret s with
        | Revert NoCommitFound | Revert CommitAlreadyRevealed
        | Revert (RevealTooEarly _) => False
        | _ => True
        end)) /\
  (c = noCommit -> REVEAL_DELAY <= block_number e ->
     canReveal = true /\ hasPendingCommit s player = false).
Proof.
  intros Hv Hmax c canReveal. subst c canReveal.
  split; [|split].
  - unfold getCommitDetails. expose. repeat forward; reflexivity.
  - intros e' callee secret Hsender Hv' Hbn Hp He.
    unfold hasPendingCommit. rewrite <- Hsender in *. rewrite <- Hbn.
    split; [|split].
    + intros Hpend. apply andb_false_iff in Hpend.
      destruct Hpend as [Hb | Hr];
        [apply N.ltb_ge in Hb | apply negb_false_iff in Hr];
        expose; repeat forward; reflexivity.
    + intros Hpend Hcan. apply andb_true_iff in Hpend as [Hb Hr].
      apply N.ltb_lt in Hb. apply negb_true_iff in Hr. apply N.leb_gt in Hcan.
      expose. repeat forward. reflexivity.
    + intros Hpend Hcan. apply andb_true_iff in Hpend as [Hb Hr].
      apply N.ltb_lt in Hb. apply negb_true_iff in Hr. apply N.leb_le in Hcan.
      expose. repeat forward; repeat branch; exact I.
  - intros Hc Hbn. unfold hasPendingCommit. rewrite Hc. simpl.
    split; [apply N.leb_le; exact Hbn | reflexivity].
Qed.

(** ** Paying a prize *)

(** X16: when the recipient takes the prize without calling back,
    [revealSpin] and [quickSpin] lower the house balance and the contract
    balance by the prize and raise the player's winnings by it, count the
    spin and log [SpinRevealed] with the wager, the prize and the draw. *)
Theorem paid_prize_is_accounted
    (s : State) (e : Env) (secret : uint256) (k : State -> list Tx) :
  (forall st, k st = []) ->
  (reveal_passes keccak256 s e secret ->
   _calculatePrize (reveal_draw keccak256 s e secret) <= houseBalance s ->
   _calculatePrize (reveal_draw keccak256 s e secret) <= balance s ->
   playerTotalWins s (msg_sender e) + _calculatePrize (reveal_draw keccak256 s e secret)
     <= MAX_UINT256 ->
   playerTotalSpins s (msg_sender e) + 1 <= MAX_UINT256 ->
   exists s',
     revealSpin keccak256 e (Some k) secret s
       = Ok (_calculatePrize (reveal_draw keccak256 s e secret), s') /\
     houseBalance s'
       = houseBalance s - _calculatePrize (reveal_draw keccak256 s e secret) /\
     balance s' = balance s - _calculatePrize (reveal_draw keccak256 s e secret) /\
     playerTotalWins s' (msg_sender e)
       = playerTotalWins s (msg_sender e)
         + _calculatePrize (reveal_draw keccak256 s e secret) /\
     playerTotalSpins s' (msg_sender e) = playerTotalSpins s (msg_sender e) + 1 /\
     events s' = events s ++
       [SpinRevealed (msg_sender e) (betAmount (commits s (msg_sender e)))
          (_calculatePrize (reveal_draw keccak256 s e secret))
          (reveal_draw keccak256 s e secret) (block_timestamp e)]) /\
  (quick_accepted s e ->
   _calculatePrize (quick_draw keccak256 s e) <= balance s + SPIN_COST ->
   playerTotalWins s (msg_sender e) + _calculatePrize (quick_draw keccak256 s e)
     <= MAX_UINT256 ->
   playerTotalSpins s (msg_sender e) + 1 <= MAX_UINT256 ->
   exists s',
     quickSpin keccak256 e (Some k) s = Ok (_calculatePrize (quick_draw keccak256 s e), s') /\
     houseBalance s'
       = houseBalance s + SPIN_COST - _calculatePrize (quick_draw keccak256 s e) /\
     balance s' = balance s + SPIN_COST - _calculatePrize (quick_draw keccak256 s e) /\
     playerTotalWins s' (msg_sender e)
       = playerTotalWins s (msg_sender e) + _calculatePrize (quick_draw keccak256 s e) /\
     playerTotalSpins s' (msg_sender e) = playerTotalSpins s (msg_sender e) + 1 /\
     events s' = events s ++
       [SpinRevealed (msg_sender e) SPIN_COST
          (_calculatePrize (quick_draw keccak256 s e))
          (quick_draw keccak256 s e) (block_timestamp e)]).
Proof.
  intros Hk. split.
  - unfold reveal_passes, reveal_draw.
    intros (Hv & Hp & He & Hb & Hr & Hdue & Hmax & Hn & Hh) Hhb Hbal Hw Hs.
    expose. repeat forward; rewrite ?Hk; simpl fold_left;
      (eexists; split; [reflexivity |]); fields; rewrite ?upd_same;
      repeat split; try reflexivity; lia.
  - unfold quick_accepted, quick_draw.
    intros (Hp & He & Hv & Hhb & Hcool & Hts & Hfit & Hn & Hbn) Hbal Hw Hs.
    prize_bound.
    expose. repeat forward; rewrite ?Hk; simpl fold_left;
      (eexists; split; [reflexivity |]); fields; rewrite ?upd_same;
      repeat split; try reflexivity; try congruence; lia.
Qed.

End Reading.

(** ** The odds *)

(** X17: of the 1000 draws, 600 pay nothing, 300 pay 0.05 ether, 50 pay
    0.1, 30 pay 0.2, 15 pay 0.5 and 5 pay 1 ether; over one spin on each
    draw the house pays 38.5 ether out of the 100 ether wagered. *)
Theorem odds_of_the_wheel :
  List.length (draws_paying PRIZE_0) = 600%nat /\
  List.length (draws_paying PRIZE_1) = 300%nat /\
  List.length (draws_paying PRIZE_2) = 50%nat /\
  List.length (draws_paying PRIZE_3) = 30%nat /\
  List.length (draws_paying PRIZE_4) = 15%nat /\
  List.length (draws_paying PRIZE_5) = 5%nat /\
  2 * total_of_prizes = 77 * ether /\
  1000 * SPIN_COST = 100 * ether.
Proof. repeat apply conj; vm_compute; reflexivity. Qed.

(** ** Concrete runs of the further properties *)

(** X8 at work: after the owner has paused, account [8] tries a quick spin. *)
Lemma paused_refuses_spins_witness :
  paused (step sum_hash committed pause1) = true /\
  quickSpin sum_hash (env 8 SPIN_COST 12 2040 0) accepts (step sum_hash committed pause1)
    = Revert EnforcedPause.
Proof.
  assert (Hp : paused (step sum_hash committed pause1) = true) by reflexivity.
  split; [exact Hp |].
  destruct (paused_refuses_spins sum_hash (step sum_hash committed pause1)
              (env 8 SPIN_COST 12 2040 0) Hp) as (_ & Hq & _).
  apply Hq.
Defined.

(** X9 at work: the owner pauses the funded contract and unpauses it. *)
Lemma pause_then_unpause_witness :
  msg_value (env 1 0 6 1001 0) = 0 /\
  pause (env 1 0 6 1001 0) funded = Ok (tt, log (Paused 1) (set_paused true funded)) /\
  unpause (env 1 0 6 1001 0) (log (Paused 1) (set_paused true funded))
    = Ok (tt, log (Unpaused 1) (log (Paused 1) funded)).
Proof.
  assert (Hv : msg_value (env 1 0 6 1001 0) = 0) by reflexivity.
  split; [exact Hv |].
  destruct (pause_then_unpause funded (env 1 0 6 1001 0) (env 1 0 6 1001 0) Hv Hv)
    as (_ & _ & _ & H).
  exact (H eq_refl eq_refl eq_refl).
Defined.

(** X10 at work: the owner empties the paused contract, which holds 1.1
    ether; and the same with an owner that hands the ownership to account
    [9] on receiving the ether. *)
Lemma emergencyWithdraw_drains_witness :
  msg_value (env 1 0 12 2040 0) = 0 /\
  entered (step sum_hash committed pause1) = false /\
  emergencyWithdraw (env 1 0 12 2040 0) accepts (step sum_hash committed pause1)
    = Ok (tt, log (FundsWithdrawn 1 (ether + SPIN_COST))
                (set_entered false
                   (set_balance 0
                      (set_houseBalance 0
                         (set_entered true (step sum_hash committed pause1)))))) /\
  exists s',
    emergencyWithdraw (env 1 0 12 2040 0) (hands_over (env 1 0 12 2040 0) 9)
                      (step sum_hash committed pause1)
      = Ok (tt, s') /\
    owner s' = 9 /\ houseBalance s' = 0 /\ balance s' = 0 /\
    events s' = events (step sum_hash committed pause1)
                ++ [OwnershipTransferred 1 9; FundsWithdrawn 9 (ether + SPIN_COST)].
Proof.
  assert (Hv : msg_value (env 1 0 12 2040 0) = 0) by reflexivity.
  assert (He : entered (step sum_hash committed pause1) = false) by reflexivity.
  split; [exact Hv | split; [exact He | split]].
  - destruct (emergencyWithdraw_drains sum_hash (step sum_hash committed pause1)
                (env 1 0 12 2040 0) accepts Hv He) as (_ & _ & _ & H & _).
    exact (H (fun _ => []) eq_refl eq_refl eq_refl).
  - destruct (emergencyWithdraw_drains sum_hash (step sum_hash committed pause1)
                (env 1 0 12 2040 0) (hands_over (env 1 0 12 2040 0) 9) Hv He)
      as (_ & _ & _ & H & _).
    eexists. split; [exact (H _ eq_refl eq_refl eq_refl) |].
    repeat apply conj; reflexivity.
Defined.

(** X12 at work: the commit of account [7] on the funded contract. *)
Lemma commitSpin_accepts_witness :
  commit_accepted funded (env 7 SPIN_COST 10 2000 0) /\
  exists s', commitSpin sum_hash (env 7 SPIN_COST 10 2000 0) (sum_hash [42]) funded
             = Ok (2049, s').
Proof.
  assert (Hacc : commit_accepted funded (env 7 SPIN_COST 10 2000 0))
    by (unfold commit_accepted; repeat apply conj; run_model).
  split; [exact Hacc |].
  destruct (commitSpin_accepts sum_hash funded (env 7 SPIN_COST 10 2000 0) (sum_hash [42]))
    as [_ H].
  eexists. exact (H Hacc).
Defined.

(** X13 at work: ten seconds after its commit, account [7] tries a quick
    spin. *)
Lemma second_spin_waits_witness :
  commitSpin sum_hash (env 7 SPIN_COST 10 2000 0) (sum_hash [42]) funded
    = Ok (2049, committed) /\
  quickSpin sum_hash (env 7 SPIN_COST 11 2010 0) accepts committed
    = Revert (CooldownNotExpired 20).
Proof.
  assert (Hcommit : commitSpin sum_hash (env 7 SPIN_COST 10 2000 0) (sum_hash [42]) funded
                    = Ok (2049, committed)) by reflexivity.
  assert (Hhb : MAX_PRIZE <= houseBalance committed) by run_model.
  assert (Hmax : block_timestamp (env 7 SPIN_COST 10 2000 0) + COOLDOWN_PERIOD <= MAX_UINT256)
    by run_model.
  assert (Hearly : block_timestamp (env 7 SPIN_COST 11 2010 0)
                   < block_timestamp (env 7 SPIN_COST 10 2000 0) + COOLDOWN_PERIOD)
    by run_model.
  split; [exact Hcommit |].
  destruct (second_spin_waits sum_hash funded (env 7 SPIN_COST 10 2000 0) (sum_hash [42])
              rejects 2049 committed committed (env 7 SPIN_COST 11 2010 0)
              (or_introl Hcommit) eq_refl eq_refl eq_refl eq_refl eq_refl Hhb Hmax Hearly)
    as [_ Hq].
  apply Hq.
Defined.


(** X15 at work: at block 11 the commit of account [7], made at block 10,
    cannot be revealed yet. *)
Lemma getCommitDetails_and_reveal_witness :
  msg_value (env 9 0 11 2010 0) = 0 /\
  blockNumber (commits committed 7) + REVEAL_DELAY <= MAX_UINT256 /\
  getCommitDetails (env 9 0 11 2010 0) 7 committed
    = Ok ((2049, 10, SPIN_COST, false, false), committed).
Proof.
  assert (Hv : msg_value (env 9 0 11 2010 0) = 0) by reflexivity.
  assert (Hmax : blockNumber (commits committed 7) + REVEAL_DELAY <= MAX_UINT256)
    by run_model.
  split; [exact Hv | split; [exact Hmax |]].
  destruct (getCommitDetails_and_reveal sum_hash committed (env 9 0 11 2010 0) 7 Hv Hmax)
    as (H & _).
  exact H.
Defined.

(** X16 at work: account [7] reveals at block 12, draws 974 and takes the
    prize of 0.2 ether. *)
Lemma paid_prize_is_accounted_witness :
  reveal_passes sum_hash committed (env 7 0 12 2024 900) 42 /\
  exists s',
    revealSpin sum_hash (env 7 0 12 2024 900) accepts 42 committed = Ok (PRIZE_3, s') /\
    houseBalance s' = houseBalance committed - PRIZE_3 /\
    balance s' = balance committed - PRIZE_3 /\
    playerTotalWins s' 7 = PRIZE_3.
Proof.
  assert (Hpass : reveal_passes sum_hash committed (env 7 0 12 2024 900) 42)
    by (unfold reveal_passes; repeat apply conj; run_model).
  split; [exact Hpass |].
  destruct (paid_prize_is_accounted sum_hash committed (env 7 0 12 2024 900) 42
              (fun _ => []) (fun _ => eq_refl)) as (Hreveal & _).
  destruct Hreveal as (s' & Hr & Hhb & Hbal & Hw & _);
    [exact Hpass | run_model | run_model | run_model | run_model |].
  exists s'. split; [exact Hr | split; [exact Hhb | split; [exact Hbal | exact Hw]]].
Defined.
